(** * CloudCore SaaS: compliance-evaluation model

    A shallow embedding of the domain entities (Incident, Risk,
    ContinuityScenario, KPI), of the evaluators built on them (SLAManager,
    AvailabilityManager, RecoverySimulator, GovernanceDashboard) and of the
    Python arithmetic they use, followed by the properties of the model.

    Conventions of the embedding:
    - a Python [float] is an exact rational ([Q]); [int] is [Z]; an
      int/float mix is computed in [Q], the way Python promotes it;
    - [round(x, n)] and [round(x)] round the exact value half to even;
      binary64 can round a value next to a tie the other way and does not
      multiply associatively, so the properties are stated as bounds,
      monotonicity, tolerances and values that both arithmetics give;
    - [a / b] is fallible: it raises [ZeroDivisionError] when [b] is zero, so
      every function that divides returns a [result];
    - a [datetime] is a number of microseconds, the resolution of Python's
      [datetime] and [timedelta];
    - an object mutated by a method is passed in and returned;
    - logging calls, which change no state of the model, are left out. *)

From Stdlib Require Import QArith Qround Qminmax Lqa ZArith Lia.
From stdpp Require Import gmap strings list.

Open Scope Q_scope.

(** ** Python exceptions and the error monad *)

Inductive exn : Type :=
| ZeroDivisionError.

Inductive result (A : Type) : Type :=
| Ok (a : A)
| Raise (e : exn).

Arguments Ok {A} a.
Arguments Raise {A} e.

#[global] Instance result_ret : MRet result := fun A a => Ok a.

#[global] Instance result_bind : MBind result := fun A B k c =>
  match c with
  | Ok a => k a
  | Raise e => Raise e
  end.

(** The exception of an operation applied to a value of the wrong type:
    formatting [None] as a number, comparing a string with a number. A
    computation that can raise it returns [inl TypeError] or [inr] its
    value. *)
Inductive type_error : Type :=
| TypeError.

(** ** Python numbers *)

Definition Qlt_bool (a b : Q) : bool := negb (Qle_bool b a).

(** [a / b] *)
Definition py_truediv (a b : Q) : result Q :=
  if Qeq_bool b 0 then Raise ZeroDivisionError else Ok (a / b).

(** [max(a, b)]: the first argument is kept unless the second is larger. *)
Definition py_max (a b : Q) : Q :=
  if Qlt_bool a b then b else a.

(** Rounding half to even, the rule of Python's [round]. *)
Definition round_half_even (y : Q) : Z :=
  let f := Qfloor y in
  match Qcompare (y - inject_Z f) (1 # 2) with
  | Lt => f
  | Gt => (f + 1)%Z
  | Eq => if Z.even f then f else (f + 1)%Z
  end.

Definition pow10 (ndigits : nat) : Q := inject_Z (10 ^ Z.of_nat ndigits).

(** [round(x, ndigits)] *)
Definition py_round (ndigits : nat) (x : Q) : Q :=
  inject_Z (round_half_even (x * pow10 ndigits)) / pow10 ndigits.

(** [round(x)], which returns an [int] *)
Definition py_round_int (x : Q) : Z := round_half_even x.

(** [sum(xs)]: left to right, from 0 *)
Definition py_sum (xs : list Q) : Q := fold_left Qplus xs 0.

(** [sum(1 for x in xs if p(x))] *)
Definition py_count {A : Type} (p : A -> bool) (xs : list A) : Z :=
  fold_left (fun acc x => if p x then (acc + 1)%Z else acc) xs 0%Z.

(** [len(xs)] *)
Definition len {A : Type} (xs : list A) : Z := Z.of_nat (length xs).

(** The values stored in the dictionaries the evaluators return. *)
#[local] Unset Elimination Schemes.
Inductive pyval : Type :=
| VNone
| VBool (b : bool)
| VInt (n : Z)
| VFloat (x : Q)
| VStr (s : string)
| VList (vs : list pyval).
#[local] Set Elimination Schemes.

(** ** datetime *)

Definition datetime : Type := Z.
Definition timedelta : Type := Z.

(** [timedelta.total_seconds()] *)
Definition total_seconds (d : timedelta) : Q := inject_Z d / 1000000.

(** ** domain/incident.py *)

Inductive Severity : Type :=
| CRITICAL
| HIGH
| MEDIUM
| LOW.

Definition Severity_name (s : Severity) : string :=
  match s with
  | CRITICAL => "CRITICAL"
  | HIGH => "HIGH"
  | MEDIUM => "MEDIUM"
  | LOW => "LOW"
  end.

Inductive IncidentStatus : Type :=
| OPEN
| IN_PROGRESS
| RESOLVED
| CLOSED.

Definition IncidentStatus_value (s : IncidentStatus) : string :=
  match s with
  | OPEN => "Abierto"
  | IN_PROGRESS => "En progreso"
  | RESOLVED => "Resuelto"
  | CLOSED => "Cerrado"
  end.

#[global] Instance Severity_eq_dec : EqDecision Severity.
Proof. solve_decision. Defined.

#[global] Instance IncidentStatus_eq_dec : EqDecision IncidentStatus.
Proof. solve_decision. Defined.

(** The truth value of a [float]: only 0.0 is falsy. *)
Definition float_truthy (x : Q) : bool := negb (Qeq_bool x 0).

Module Incident.

Record t : Type := mk {
  incident_id : string;
  service_name : string;
  severity : Severity;
  incident_type : string;
  team : string;
  clients_affected : Z;
  status : IncidentStatus;
  created_at : datetime;
  resolved_at : option datetime;
  notes : list (datetime * string)
}.

Definition SLA_HOURS (s : Severity) : Z :=
  match s with
  | CRITICAL => 1
  | HIGH => 4
  | MEDIUM => 8
  | LOW => 24
  end.

Definition PENALTY_USD_PER_HOUR (s : Severity) : Z :=
  match s with
  | CRITICAL => 5000
  | HIGH => 2000
  | MEDIUM => 500
  | LOW => 100
  end.

(** [Incident(...)]; [now] is the reading of [datetime.now()]. *)
Definition init (now : datetime) (incident_id service_name : string)
    (severity : Severity) (incident_type team : string)
    (clients_affected : Z) : t :=
  {| incident_id := incident_id;
     service_name := service_name;
     severity := severity;
     incident_type := incident_type;
     team := team;
     clients_affected := clients_affected;
     status := OPEN;
     created_at := now;
     resolved_at := None;
     notes := [] |}.

(** [inc.created_at = at], as the incident generator does *)
Definition set_created_at (at' : datetime) (self : t) : t :=
  {| incident_id := incident_id self;
     service_name := service_name self;
     severity := severity self;
     incident_type := incident_type self;
     team := team self;
     clients_affected := clients_affected self;
     status := status self;
     created_at := at';
     resolved_at := resolved_at self;
     notes := notes self |}.

Definition resolve (now : datetime) (at' : option datetime) (self : t) : t :=
  {| incident_id := incident_id self;
     service_name := service_name self;
     severity := severity self;
     incident_type := incident_type self;
     team := team self;
     clients_affected := clients_affected self;
     status := RESOLVED;
     created_at := created_at self;
     resolved_at := Some (match at' with Some d => d | None => now end);
     notes := notes self |}.

Definition close (self : t) : t :=
  {| incident_id := incident_id self;
     service_name := service_name self;
     severity := severity self;
     incident_type := incident_type self;
     team := team self;
     clients_affected := clients_affected self;
     status := CLOSED;
     created_at := created_at self;
     resolved_at := resolved_at self;
     notes := notes self |}.

Definition add_note (now : datetime) (note : string) (self : t) : t :=
  {| incident_id := incident_id self;
     service_name := service_name self;
     severity := severity self;
     incident_type := incident_type self;
     team := team self;
     clients_affected := clients_affected self;
     status := status self;
     created_at := created_at self;
     resolved_at := resolved_at self;
     notes := notes self ++ [(now, note)] |}.

(** [None] stands for Python's [None]. *)
Definition resolution_time_hours (self : t) : option Q :=
  match resolved_at self with
  | Some r =>
      let delta : timedelta := (r - created_at self)%Z in
      Some (total_seconds delta / 3600)
  | None => None
  end.

Definition sla_limit_hours (self : t) : Z := SLA_HOURS (severity self).

Definition meets_sla (self : t) : bool :=
  match resolution_time_hours self with
  | None => false
  | Some t => Qle_bool t (inject_Z (sla_limit_hours self))
  end.

Definition excess_hours (self : t) : Q :=
  match resolution_time_hours self with
  | None => 0
  | Some t => py_max 0 (t - inject_Z (sla_limit_hours self))
  end.

Definition penalty_usd (self : t) : Q :=
  py_round 2 (excess_hours self * inject_Z (PENALTY_USD_PER_HOUR (severity self))).

(** [isoformat] stands for [datetime.isoformat], which belongs to Python's
    library. *)
Definition to_dict (isoformat : datetime -> string) (self : t) : gmap string pyval :=
  <["incident_id"%string := VStr (incident_id self)]>
  (<["service_name"%string := VStr (service_name self)]>
  (<["severity"%string := VStr (Severity_name (severity self))]>
  (<["incident_type"%string := VStr (incident_type self)]>
  (<["team"%string := VStr (team self)]>
  (<["clients_affected"%string := VInt (clients_affected self)]>
  (<["status"%string := VStr (IncidentStatus_value (status self))]>
  (<["created_at"%string := VStr (isoformat (created_at self))]>
  (<["resolved_at"%string :=
       match resolved_at self with
       | Some r => VStr (isoformat r)
       | None => VNone
       end]>
  (<["resolution_time_h"%string :=
       match resolution_time_hours self with
       | Some t => if float_truthy t then VFloat (py_round 4 t) else VNone
       | None => VNone
       end]>
  (<["sla_limit_h"%string := VInt (sla_limit_hours self)]>
  (<["meets_sla"%string := VBool (meets_sla self)]>
  (<["excess_h"%string := VFloat (py_round 4 (excess_hours self))]>
  (<["penalty_usd"%string := VFloat (penalty_usd self)]>
   ∅))))))))))))).

End Incident.

(** ** management/sla_manager.py *)

Module SLAManager.

(** The dictionary [evaluate] appends: its four keys are fixed. *)
Record Evaluation : Type := mkEvaluation {
  ev_incident_id : string;
  ev_severity : string;
  ev_result : string;
  ev_penalty_usd : Q
}.

Record t : Type := mk {
  evaluations : list Evaluation
}.

Definition init : t := {| evaluations := [] |}.

Definition evaluate (incident : Incident.t) (self : t) : string * t :=
  match Incident.resolution_time_hours incident with
  | None => ("Pendiente"%string, self)
  | Some _ =>
      let result : string :=
        if Incident.meets_sla incident then "Cumple SLA" else "Incumple SLA" in
      (result,
       {| evaluations := evaluations self ++
            [ {| ev_incident_id := Incident.incident_id incident;
                 ev_severity := Severity_name (Incident.severity incident);
                 ev_result := result;
                 ev_penalty_usd := Incident.penalty_usd incident |} ] |})
  end.

(** [[self.evaluate(i) for i in incidents]] *)
Fixpoint evaluate_each (incidents : list Incident.t) (self : t)
    : list string * t :=
  match incidents with
  | [] => ([], self)
  | i :: rest =>
      let '(r, self1) := evaluate i self in
      let '(rs, self2) := evaluate_each rest self1 in
      (r :: rs, self2)
  end.

(** The summary dictionary is built key by key, in the order of the
    source; the first failing value aborts the construction. *)
Definition evaluate_batch (incidents : list Incident.t) (self : t)
    : result (gmap string pyval) * t :=
  let '(results, self') := evaluate_each incidents self in
  let total := len incidents in
  let compliant := py_count Incident.meets_sla incidents in
  let total_penalty := py_sum (map Incident.penalty_usd incidents) in
  let summary :=
    rate ← (if (total =? 0)%Z then Ok (VInt 0)
            else q ← py_truediv (inject_Z compliant) (inject_Z total);
                 Ok (VFloat (py_round 2 (q * 100))));
    ratio ← py_truediv (inject_Z compliant) (inject_Z total);
    Ok (<["total_incidents"%string := VInt total]>
        (<["compliant"%string := VInt compliant]>
        (<["non_compliant"%string := VInt (total - compliant)]>
        (<["compliance_rate_pct"%string := rate]>
        (<["total_penalty_usd"%string := VFloat (py_round 2 total_penalty)]>
        (<["sla_status"%string :=
             VStr (if Qle_bool 0.95 ratio then "CUMPLE" else "INCUMPLE")]>
         ∅)))))) in
  (summary, self').

(** A value of the dictionary [compliance_by_severity] returns: its five
    keys are fixed. *)
Record SeverityBreakdown : Type := mkSeverityBreakdown {
  sb_total : Z;
  sb_compliant : Z;
  sb_pct : Q;
  sb_penalty_usd : Q;
  sb_avg_time_h : Q
}.

(** [groups[i.severity.name].append(i)] for each incident, on a
    [defaultdict(list)] *)
Definition group_by_severity (incidents : list Incident.t)
    : gmap string (list Incident.t) :=
  fold_left
    (fun groups i =>
       let k := Severity_name (Incident.severity i) in
       <[k := default [] (groups !! k) ++ [i]]> groups)
    incidents ∅.

(** [[i.resolution_time_hours() for i in group if i.resolution_time_hours()]] *)
Definition truthy_resolution_times (group : list Incident.t) : list Q :=
  omap (fun i => match Incident.resolution_time_hours i with
                 | Some t => if float_truthy t then Some t else None
                 | None => None
                 end) group.

(** The dictionary built for one group, key by key. *)
Definition group_breakdown (group : list Incident.t) : result SeverityBreakdown :=
  let compliant := py_count Incident.meets_sla group in
  pct_q ← py_truediv (inject_Z compliant) (inject_Z (len group));
  avg_q ← py_truediv (py_sum (truthy_resolution_times group)) (inject_Z (len group));
  Ok {| sb_total := len group;
        sb_compliant := compliant;
        sb_pct := py_round 2 (pct_q * 100);
        sb_penalty_usd := py_round 2 (py_sum (map Incident.penalty_usd group));
        sb_avg_time_h := py_round 2 avg_q |}.

(** The loop over [groups.items()]; the dictionary it fills does not depend
    on the order of the groups. *)
Definition compliance_by_severity (incidents : list Incident.t)
    : result (gmap string SeverityBreakdown) :=
  map_fold
    (fun sev group acc =>
       breakdown ← acc;
       entry ← group_breakdown group;
       Ok (<[sev := entry]> breakdown))
    (Ok ∅) (group_by_severity incidents).

End SLAManager.

(** ** management/incident_manager.py *)

(** [a or b] on an optional string: [None] and the empty string are falsy. *)
Definition str_or (a : option string) (b : string) : string :=
  match a with
  | Some s => if String.eqb s "" then b else s
  | None => b
  end.

Module IncidentManager.

Record t : Type := mk {
  incidents : list Incident.t;
  _counter : Z
}.

(** [IncidentManager(seed)]: the seeding of the random source is outside the
    model. *)
Definition init : t := {| incidents := []; _counter := 1 |}.

(** [format_03d] stands for the format specifier [:03d] of Python's
    library. *)
Definition _next_id (format_03d : Z -> string) (self : t) : string * t :=
  (("INC-2024-" ++ format_03d (_counter self))%string,
   {| incidents := incidents self; _counter := (_counter self + 1)%Z |}).

(** [drawn_type] and [drawn_team] are the values [random.choice] returns when
    it is called; [now] is the reading of [datetime.now()]. *)
Definition register_incident (format_03d : Z -> string) (now : datetime)
    (drawn_type drawn_team : string)
    (service_name : string) (severity : Severity)
    (incident_type team : option string) (clients_affected : Z) (self : t)
    : Incident.t * t :=
  let '(iid, self1) := _next_id format_03d self in
  let inc :=
    Incident.init now iid service_name severity
      (str_or incident_type drawn_type) (str_or team drawn_team)
      clients_affected in
  (inc, {| incidents := incidents self1 ++ [inc]; _counter := _counter self1 |}).

Definition get_open_incidents (self : t) : list Incident.t :=
  List.filter (fun i => bool_decide (Incident.status i = OPEN)) (incidents self).

Definition get_by_severity (severity : Severity) (self : t) : list Incident.t :=
  List.filter (fun i => bool_decide (Incident.severity i = severity)) (incidents self).

Definition total_penalty_usd (self : t) : Q :=
  py_round 2 (py_sum (map Incident.penalty_usd (incidents self))).

End IncidentManager.

(** ** domain/risk.py *)

(** The members of [RiskLevel]; the prefix keeps them apart from those of
    [Severity]. *)
Inductive RiskLevel : Type :=
| RISK_LOW
| RISK_MEDIUM
| RISK_HIGH
| RISK_CRITICAL.

Definition RiskLevel_value (l : RiskLevel) : string :=
  match l with
  | RISK_LOW => "Bajo"
  | RISK_MEDIUM => "Medio"
  | RISK_HIGH => "Alto"
  | RISK_CRITICAL => "Crítico"
  end.

Module Risk.

(** An entry of [controls]: a dictionary with the two keys [add_control]
    writes. *)
Record Control : Type := mkControl {
  control_name : string;
  effectiveness : Q
}.

Record t : Type := mk {
  risk_id : string;
  name : string;
  category : string;
  probability : Q;
  impact_usd : Q;
  controls : list Control
}.

Definition RISK_APPETITE_USD : Z := 50000.

Definition init (risk_id name category : string) (probability impact_usd : Q) : t :=
  {| risk_id := risk_id;
     name := name;
     category := category;
     probability := probability;
     impact_usd := impact_usd;
     controls := [] |}.

Definition inherent_risk_usd (self : t) : Q :=
  py_round 2 (probability self * impact_usd self).

Definition add_control (control_name : string) (effectiveness : Q) (self : t) : t :=
  {| risk_id := risk_id self;
     name := name self;
     category := category self;
     probability := probability self;
     impact_usd := impact_usd self;
     controls := controls self ++
       [ {| control_name := control_name; effectiveness := effectiveness |} ] |}.

(** The loop [for c in self.controls: remaining *= (1 - c.effectiveness)] *)
Definition remaining_after (cs : list Control) (remaining : Q) : Q :=
  fold_left (fun rem c => rem * (1 - effectiveness c)) cs remaining.

Definition control_effectiveness (self : t) : Q :=
  match controls self with
  | [] => 0
  | _ :: _ => py_round 4 (1 - remaining_after (controls self) 1)
  end.

Definition residual_risk_usd (self : t) : Q :=
  let reduction := control_effectiveness self in
  py_round 2 (inherent_risk_usd self * (1 - reduction)).

Definition risk_level (self : t) : RiskLevel :=
  let r := residual_risk_usd self in
  if Qlt_bool r 10000 then RISK_LOW
  else if Qlt_bool r 30000 then RISK_MEDIUM
  else if Qlt_bool r 60000 then RISK_HIGH
  else RISK_CRITICAL.

Definition exceeds_appetite (self : t) : bool :=
  Qlt_bool (inject_Z RISK_APPETITE_USD) (residual_risk_usd self).

End Risk.

(** ** domain/continuity.py *)

Inductive DisruptionType : Type :=
| DATABASE_FAILURE
| RANSOMWARE
| CLOUD_OUTAGE
| NETWORK_LOSS
| DEPLOY_FAILURE.

Definition DisruptionType_value (d : DisruptionType) : string :=
  match d with
  | DATABASE_FAILURE => "Fallo Total de Base de Datos"
  | RANSOMWARE => "Ataque Ransomware"
  | CLOUD_OUTAGE => "Caída de Infraestructura Cloud"
  | NETWORK_LOSS => "Pérdida de Conectividad de Red"
  | DEPLOY_FAILURE => "Error Crítico en Despliegue"
  end.

(** An optional [float] as a dictionary value *)
Definition VFloat_or_None (x : option Q) : pyval :=
  match x with
  | Some v => VFloat v
  | None => VNone
  end.

Module ContinuityScenario.

Record t : Type := mk {
  scenario_id : string;
  disruption_type : DisruptionType;
  probability : Q;
  rto_objective_h : Q;
  rpo_objective_h : Q;
  clients_affected : Z;
  actual_rto_h : option Q;
  actual_rpo_h : option Q
}.

Definition COST_PER_HOUR_USD : Z := 15000.

Definition init (scenario_id : string) (disruption_type : DisruptionType)
    (probability rto_objective_h rpo_objective_h : Q) (clients_affected : Z) : t :=
  {| scenario_id := scenario_id;
     disruption_type := disruption_type;
     probability := probability;
     rto_objective_h := rto_objective_h;
     rpo_objective_h := rpo_objective_h;
     clients_affected := clients_affected;
     actual_rto_h := None;
     actual_rpo_h := None |}.

Definition simulate (actual_rto_h actual_rpo_h : Q) (self : t) : t :=
  {| scenario_id := scenario_id self;
     disruption_type := disruption_type self;
     probability := probability self;
     rto_objective_h := rto_objective_h self;
     rpo_objective_h := rpo_objective_h self;
     clients_affected := clients_affected self;
     actual_rto_h := Some actual_rto_h;
     actual_rpo_h := Some actual_rpo_h |}.

Definition meets_rto (self : t) : bool :=
  match actual_rto_h self with
  | None => false
  | Some a => Qle_bool a (rto_objective_h self)
  end.

Definition meets_rpo (self : t) : bool :=
  match actual_rpo_h self with
  | None => false
  | Some a => Qle_bool a (rpo_objective_h self)
  end.

Definition financial_impact_usd (self : t) : Q :=
  match actual_rto_h self with
  | None => 0
  | Some a => py_round 2 (a * inject_Z COST_PER_HOUR_USD)
  end.

Definition residual_risk_usd (self : t) : Q :=
  py_round 2 (probability self * financial_impact_usd self).

Definition rto_gap_h (self : t) : Q :=
  match actual_rto_h self with
  | None => 0
  | Some a => py_round 2 (py_max 0 (a - rto_objective_h self))
  end.

Definition to_dict (self : t) : gmap string pyval :=
  <["scenario_id"%string := VStr (scenario_id self)]>
  (<["disruption_type"%string := VStr (DisruptionType_value (disruption_type self))]>
  (<["probability"%string := VFloat (probability self)]>
  (<["rto_objective_h"%string := VFloat (rto_objective_h self)]>
  (<["rpo_objective_h"%string := VFloat (rpo_objective_h self)]>
  (<["actual_rto_h"%string := VFloat_or_None (actual_rto_h self)]>
  (<["actual_rpo_h"%string := VFloat_or_None (actual_rpo_h self)]>
  (<["meets_rto"%string := VBool (meets_rto self)]>
  (<["meets_rpo"%string := VBool (meets_rpo self)]>
  (<["rto_gap_h"%string := VFloat (rto_gap_h self)]>
  (<["clients_affected"%string := VInt (clients_affected self)]>
  (<["financial_impact_usd"%string := VFloat (financial_impact_usd self)]>
  (<["residual_risk_usd"%string := VFloat (residual_risk_usd self)]>
   ∅)))))))))))).

End ContinuityScenario.

(** ** domain/service.py *)

Inductive ServiceStatus : Type :=
| OPERATIONAL
| DEGRADED
| OUTAGE
| MAINTENANCE.

Module Service.

Record DowntimeEvent : Type := mkDowntimeEvent {
  ev_start : datetime;
  ev_end : datetime;
  duration_h : Q;
  cause : string;
  cost_usd : Q
}.

Record t : Type := mk {
  service_id : string;
  name : string;
  tier : Z;
  sla_availability_pct : Q;
  status : ServiceStatus;
  downtime_events : list DowntimeEvent
}.

Definition COST_PER_HOUR_USD : Z := 15000.

Definition register_downtime (start end' : datetime) (cause : string) (self : t) : t :=
  let duration_h := total_seconds (end' - start)%Z / 3600 in
  {| service_id := service_id self;
     name := name self;
     tier := tier self;
     sla_availability_pct := sla_availability_pct self;
     status := status self;
     downtime_events := downtime_events self ++
       [ {| ev_start := start;
            ev_end := end';
            duration_h := py_round 4 duration_h;
            cause := cause;
            cost_usd := py_round 2 (duration_h * inject_Z COST_PER_HOUR_USD) |} ] |}.

Definition total_downtime_hours (self : t) : Q :=
  py_sum (map duration_h (downtime_events self)).

Definition availability (total_hours : Q) (self : t) : result Q :=
  if Qeq_bool total_hours 0 then Ok 100
  else
    let uptime := total_hours - total_downtime_hours self in
    q ← py_truediv uptime total_hours;
    Ok (py_round 4 (q * 100)).

Definition meets_sla (total_hours : Q) (self : t) : result bool :=
  a ← availability total_hours self;
  Ok (Qle_bool (sla_availability_pct self) a).

Definition total_financial_impact (self : t) : Q :=
  py_round 2 (py_sum (map cost_usd (downtime_events self))).

Definition set_status (status : ServiceStatus) (self : t) : t :=
  {| service_id := service_id self;
     name := name self;
     tier := tier self;
     sla_availability_pct := sla_availability_pct self;
     status := status;
     downtime_events := downtime_events self |}.

End Service.

(** ** management/availability_manager.py *)

Module AvailabilityManager.

(** The dictionary [record_monthly_availability] stores: its keys are
    fixed. *)
Record MonthlyRecord : Type := mkMonthlyRecord {
  month : string;
  uptime_pct : Q;
  hours_down : Q;
  minutes_down : Q;
  meets_sla : bool;
  financial_impact : Q
}.

Record t : Type := mk {
  total_minutes : Z;
  downtime_minutes : Q;
  services : list Service.t;
  monthly_records : list MonthlyRecord
}.

Definition HOURS_PER_MONTH : Z := 730.

(** [total_minutes_period or (HOURS_PER_MONTH * 60 * 12)]: [None] and [0]
    are the falsy arguments. *)
Definition init (total_minutes_period : option Z) : t :=
  {| total_minutes :=
       match total_minutes_period with
       | None => (HOURS_PER_MONTH * 60 * 12)%Z
       | Some n => if (n =? 0)%Z then (HOURS_PER_MONTH * 60 * 12)%Z else n
       end;
     downtime_minutes := 0;
     services := [];
     monthly_records := [] |}.

Definition register_downtime (minutes : Q) (self : t) : t :=
  {| total_minutes := total_minutes self;
     downtime_minutes := downtime_minutes self + minutes;
     services := services self;
     monthly_records := monthly_records self |}.

Definition calculate_availability (self : t) : result Q :=
  let uptime := inject_Z (total_minutes self) - downtime_minutes self in
  q ← py_truediv uptime (inject_Z (total_minutes self));
  Ok (py_round 4 (q * 100)).

Definition evaluate_sla (target : Q) (self : t) : result bool :=
  a ← calculate_availability self;
  Ok (Qle_bool target a).

Definition add_service (service : Service.t) (self : t) : t :=
  {| total_minutes := total_minutes self;
     downtime_minutes := downtime_minutes self;
     services := services self ++ [service];
     monthly_records := monthly_records self |}.

Definition record_monthly_availability (month : string)
    (uptime_pct hours_down sla_target : Q) (self : t) : MonthlyRecord * t :=
  let cost := py_round 2 (hours_down * inject_Z Service.COST_PER_HOUR_USD) in
  let record :=
    {| month := month;
       uptime_pct := py_round 4 uptime_pct;
       hours_down := py_round 2 hours_down;
       minutes_down := py_round 1 (hours_down * 60);
       meets_sla := Qle_bool sla_target uptime_pct;
       financial_impact := cost |} in
  (record,
   {| total_minutes := total_minutes self;
      downtime_minutes := downtime_minutes self;
      services := services self;
      monthly_records := monthly_records self ++ [record] |}).

Definition annual_summary (sla_target : Q) (self : t) : result (gmap string pyval) :=
  match monthly_records self with
  | [] => Ok ∅
  | _ :: _ =>
      let records := monthly_records self in
      avg_uptime ← py_truediv (py_sum (map uptime_pct records)) (inject_Z (len records));
      let compliant := List.filter meets_sla records in
      let total_cost := py_sum (map financial_impact records) in
      Ok (<["avg_annual_uptime_pct"%string := VFloat (py_round 4 avg_uptime)]>
          (<["months_compliant"%string := VInt (len compliant)]>
          (<["months_non_compliant"%string := VInt (len records - len compliant)]>
          (<["non_compliant_months"%string :=
               VList (map (fun r => VStr (month r))
                        (List.filter (fun r => negb (meets_sla r)) records))]>
          (<["total_financial_impact"%string := VFloat (py_round 2 total_cost)]>
          (<["global_status"%string :=
               VStr (if Qle_bool sla_target avg_uptime
                     then "CUMPLE" else "REQUIERE_MEJORA")]>
           ∅))))))
  end.

End AvailabilityManager.

(** ** continuity/recovery_simulator.py *)

Module RecoverySimulator.

Record t : Type := mk {
  rto_hours : Q;
  scenarios : list ContinuityScenario.t
}.

Definition init (rto_minutes : option Z) (rto_hours : Q) : t :=
  {| rto_hours :=
       match rto_minutes with
       | Some m => inject_Z m / 60
       | None => rto_hours
       end;
     scenarios := [] |}.

Definition simulate_recovery (actual_recovery_time : Q) (self : t) : string :=
  if Qle_bool actual_recovery_time (rto_hours self * 60)
  then "Recuperación dentro del RTO"
  else "Incumplimiento del RTO".

Definition add_scenario (scenario : ContinuityScenario.t) (self : t) : t :=
  {| rto_hours := rto_hours self;
     scenarios := scenarios self ++ [scenario] |}.

Definition continuity_summary (self : t) : result (gmap string pyval) :=
  match scenarios self with
  | [] => Ok ∅
  | _ :: _ =>
      let ss := scenarios self in
      let rto_compliant := py_count ContinuityScenario.meets_rto ss in
      let rpo_compliant := py_count ContinuityScenario.meets_rpo ss in
      let total := len ss in
      let total_impact := py_sum (map ContinuityScenario.financial_impact_usd ss) in
      let total_risk := py_sum (map ContinuityScenario.residual_risk_usd ss) in
      rto_q ← py_truediv (inject_Z rto_compliant) (inject_Z total);
      rpo_q ← py_truediv (inject_Z rpo_compliant) (inject_Z total);
      Ok (<["total_scenarios"%string := VInt total]>
          (<["rto_compliant"%string := VInt rto_compliant]>
          (<["rto_compliance_pct"%string := VFloat (py_round 1 (rto_q * 100))]>
          (<["rpo_compliant"%string := VInt rpo_compliant]>
          (<["rpo_compliance_pct"%string := VFloat (py_round 1 (rpo_q * 100))]>
          (<["total_financial_impact_usd"%string := VFloat (py_round 2 total_impact)]>
          (<["total_residual_risk_usd"%string := VFloat (py_round 2 total_risk)]>
          (<["critical_scenarios"%string :=
               VList (map (fun s => VStr (ContinuityScenario.scenario_id s))
                        (List.filter (fun s => negb (ContinuityScenario.meets_rto s)) ss))]>
           ∅))))))))
  end.

(** The log line of [run_all] formats [s.actual_rto_h] with [:.2f], which
    raises [TypeError] on [None]; the line itself is not kept. *)
Fixpoint run_each (ss : list ContinuityScenario.t)
    : type_error + list (gmap string pyval) :=
  match ss with
  | [] => inr []
  | s :: rest =>
      match ContinuityScenario.actual_rto_h s with
      | None => inl TypeError
      | Some _ =>
          match run_each rest with
          | inl e => inl e
          | inr results => inr (ContinuityScenario.to_dict s :: results)
          end
      end
  end.

Definition run_all (self : t) : type_error + list (gmap string pyval) :=
  run_each (scenarios self).

End RecoverySimulator.

(** ** governance/kpi.py *)

Module KPI.

Record t : Type := mk {
  name : string;
  value : Q;
  threshold : Q;
  unit : string;
  framework : string;
  higher_is_better : bool
}.

Definition status (self : t) : string :=
  if higher_is_better self
  then (if Qle_bool (threshold self) (value self) then "OK" else "ALERTA")
  else (if Qle_bool (value self) (threshold self) then "OK" else "ALERTA").

Definition gap (self : t) : Q := py_round 4 (value self - threshold self).

Definition gap_pct (self : t) : result Q :=
  if Qeq_bool (threshold self) 0 then Ok 0
  else q ← py_truediv (gap self) (threshold self);
       Ok (py_round 2 (q * 100)).

End KPI.

(** ** governance/cobit_dashboard.py *)

Module GovernanceDashboard.

Record t : Type := mk {
  period : string;
  kpis : list KPI.t
}.

Definition MAX_ALERTS_TOLERATED : Z := 1.

Definition init (period : string) : t := {| period := period; kpis := [] |}.

Definition add_kpi (kpi : KPI.t) (self : t) : t :=
  {| period := period self; kpis := kpis self ++ [kpi] |}.

Definition alerts (self : t) : list KPI.t :=
  List.filter (fun k => String.eqb (KPI.status k) "ALERTA") (kpis self).

Definition governance_status (self : t) : string :=
  let n_alerts := len (alerts self) in
  if (n_alerts =? 0)%Z then "CONFORME"
  else if (n_alerts <=? MAX_ALERTS_TOLERATED)%Z then "OBSERVACIÓN"
  else "NO CONFORME".

(** The [descriptions] dictionary of [maturity_level] *)
Definition descriptions : gmap Z string :=
  <[5%Z := "Optimizado"%string]>
  (<[4%Z := "Cuantitativamente Gestionado"%string]>
  (<[3%Z := "Definido"%string]>
  (<[2%Z := "Gestionado"%string]>
  (<[1%Z := "Inicial"%string]>
  (<[0%Z := "Inexistente"%string]> ∅))))).

Definition maturity_level (self : t) : result (Z * string) :=
  let ok_count := py_count (fun k => String.eqb (KPI.status k) "OK") (kpis self) in
  let total := if (len (kpis self) =? 0)%Z then 1%Z else len (kpis self) in
  q ← py_truediv (inject_Z ok_count) (inject_Z total);
  let score := py_round_int (q * 5) in
  Ok (score, default "Inicial"%string (descriptions !! score)).

(** [format_2f] stands for the format specifier [:.2f] of Python's
    library. *)
Definition committee_decision (format_2f : Q -> string) (self : t) : list string :=
  let decisions :=
    map (fun kpi =>
           ("ACCIÓN REQUERIDA: '" ++ KPI.name kpi ++ "' en ALERTA "
            ++ "(valor " ++ format_2f (KPI.value kpi)
            ++ " vs umbral " ++ format_2f (KPI.threshold kpi) ++ "). "
            ++ "Asignar responsable y plazo de corrección.")%string)
        (alerts self) in
  match decisions with
  | [] => ["Sin acciones correctivas pendientes. Mantener controles actuales."%string]
  | _ :: _ => decisions
  end.

End GovernanceDashboard.

(** ** reports/report_generator.py *)

Module ReportGenerator.

(** [d.get(key, 0)] *)
Definition get_or_0 (d : gmap string pyval) (key : string) : pyval :=
  default (VInt 0) (d !! key).

(** [v >= x] for a value [v] taken from a dictionary and a number [x]: a
    [bool] counts as 0 or 1, and a value that is not a number raises
    [TypeError]. *)
Definition ge_number (v : pyval) (x : Q) : type_error + bool :=
  match v with
  | VInt n => inr (Qle_bool x (inject_Z n))
  | VFloat y => inr (Qle_bool x y)
  | VBool b => inr (Qle_bool x (if b then 1 else 0))
  | VNone | VStr _ | VList _ => inl TypeError
  end.

Definition maturity_descs : gmap Z string :=
  <[5%Z := "Optimizado"%string]>
  (<[4%Z := "Cuantitativamente Gestionado"%string]>
  (<[3%Z := "Definido"%string]>
  (<[2%Z := "Gestionado"%string]>
  (<[1%Z := "Inicial"%string]>
  (<[0%Z := "Inexistente"%string]> ∅))))).

(** [if c: maturity_score += 1] *)
Definition add_if (c : bool) (score : Z) : Z :=
  if c then (score + 1)%Z else score.

(** The maturity computation that opens [generate_final_report]: the five
    criteria are tested in the order of the source, and the first
    comparison that fails aborts. Of each dictionary the computation reads
    one key, whose value is a [pyval]. *)
Definition maturity (sla_summary availability_summary dashboard_data
    continuity_summary : gmap string pyval) : type_error + (Z * string) :=
  match ge_number (get_or_0 availability_summary "avg_annual_uptime_pct") 99.9 with
  | inl e => inl e
  | inr c1 =>
  match ge_number (get_or_0 sla_summary "compliance_rate_pct") 90 with
  | inl e => inl e
  | inr c2 =>
  match ge_number (get_or_0 dashboard_data "maturity_level") 3 with
  | inl e => inl e
  | inr c3 =>
  match ge_number (get_or_0 continuity_summary "rto_compliance_pct") 60 with
  | inl e => inl e
  | inr c4 =>
  match ge_number (get_or_0 sla_summary "compliance_rate_pct") 80 with
  | inl e => inl e
  | inr c5 =>
      let maturity_score :=
        add_if c5 (add_if c4 (add_if c3 (add_if c2 (add_if c1 0%Z)))) in
      inr (maturity_score,
           default "Inicial"%string (maturity_descs !! maturity_score))
  end end end end end.

End ReportGenerator.

(** ** Inputs and reference tables of the properties *)

(** A LOW incident resolved one microsecond after its 24-hour ceiling. *)
Definition incident_one_microsecond_late : Incident.t :=
  Incident.resolve 0%Z (Some (24 * 3600 * 1000000 + 1)%Z)
    (Incident.init 0%Z "INC-003" "Portal" LOW "Consulta" "Equipo Gamma" 1).

(** A risk carrying two controls of the given effectiveness. *)
Definition risk_with_two_controls (e1 e2 : Q) : Risk.t :=
  Risk.add_control "Control B" e2
    (Risk.add_control "Control A" e1
       (Risk.init "R-003" "Riesgo C" "Operativo" 0.10 100000)).

(** The fixed table of maturity labels, level 0 (Inexistente, non-existent)
    through level 5 (Optimizado, optimized). *)
Definition maturity_label (level : Z) : string :=
  match level with
  | 0 => "Inexistente"
  | 1 => "Inicial"
  | 2 => "Gestionado"
  | 3 => "Definido"
  | 4 => "Cuantitativamente Gestionado"
  | 5 => "Optimizado"
  | _ => "Inicial"
  end%Z.

(** The share of KPIs in state OK, 0 for an empty list. *)
Definition ok_ratio (d : GovernanceDashboard.t) : Q :=
  let kpis := GovernanceDashboard.kpis d in
  if (len kpis =? 0)%Z then 0
  else inject_Z (py_count (fun k => String.eqb (KPI.status k) "OK") kpis)
       / inject_Z (len kpis).

(** [register_downtime] called once per entry of [minutes], in order. *)
Definition register_downtimes (minutes : list Q) (m : AvailabilityManager.t)
    : AvailabilityManager.t :=
  fold_left (fun acc x => AvailabilityManager.register_downtime x acc) minutes m.

(** Whether an incident has a resolution timestamp. *)
Definition is_resolved (i : Incident.t) : bool :=
  bool_decide (is_Some (Incident.resolved_at i)).

(** Whether an incident has the given severity. *)
Definition has_severity (s : Severity) (i : Incident.t) : bool :=
  bool_decide (Incident.severity i = s).

(** The effectiveness of every control lies in [0,1], the range
    [add_control] documents. *)
Definition controls_in_range (r : Risk.t) : Prop :=
  Forall (fun c => 0 <= Risk.effectiveness c <= 1) (Risk.controls r).

(** The dictionary values that compare with a number: [int], [float] and
    [bool]. *)
Definition is_number (v : pyval) : bool :=
  match v with
  | VInt _ | VFloat _ | VBool _ => true
  | VNone | VStr _ | VList _ => false
  end.

(** * Properties *)

(** ** Rounding *)

Section Rounding.

Lemma Qlt_bool_iff (a b : Q) : Qlt_bool a b = true <-> a < b.
Proof.
  unfold Qlt_bool. rewrite negb_true_iff, <- not_true_iff_false, Qle_bool_iff.
  split; [apply Qnot_le_lt | apply Qlt_not_le].
Qed.

Lemma py_max_Qmax (a b : Q) : py_max a b == Qmax a b.
Proof.
  unfold py_max. destruct (Qlt_bool a b) eqn:E.
  - apply Qlt_bool_iff in E. symmetry. apply Q.max_r. lra.
  - apply not_true_iff_false in E. rewrite Qlt_bool_iff in E.
    symmetry. apply Q.max_l. lra.
Qed.

#[global] Instance round_half_even_comp : Proper (Qeq ==> eq) round_half_even.
Proof.
  intros x y Hxy. unfold round_half_even.
  rewrite (Qfloor_comp _ _ Hxy).
  assert (E : Qcompare (x - inject_Z (Qfloor y)) (1 # 2)
            = Qcompare (y - inject_Z (Qfloor y)) (1 # 2))
    by (apply Qcompare_comp; [rewrite Hxy|]; reflexivity).
  now rewrite E.
Qed.

(** The rounded value is within one half of the argument. *)
Lemma round_half_even_near (y : Q) :
  inject_Z (round_half_even y) - (1 # 2) <= y <= inject_Z (round_half_even y) + (1 # 2).
Proof.
  unfold round_half_even.
  pose proof (Qfloor_le y) as Hlo. pose proof (Qlt_floor y) as Hhi.
  rewrite inject_Z_plus in Hhi. change (inject_Z 1) with 1 in Hhi.
  destruct (Qcompare_spec (y - inject_Z (Qfloor y)) (1 # 2)) as [E|E|E];
    [destruct (Z.even (Qfloor y))|..];
    rewrite ?inject_Z_plus; change (inject_Z 1) with 1; lra.
Qed.

Lemma round_half_even_mono (x y : Q) :
  x <= y -> (round_half_even x <= round_half_even y)%Z.
Proof.
  intros Hxy.
  pose proof (Qfloor_resp_le _ _ Hxy) as Hf.
  pose proof (Qfloor_le x) as Hxlo. pose proof (Qlt_floor x) as Hxhi.
  pose proof (Qfloor_le y) as Hylo. pose proof (Qlt_floor y) as Hyhi.
  unfold round_half_even.
  destruct (Z.eq_dec (Qfloor x) (Qfloor y)) as [Heq|Hne].
  - rewrite Heq in *.
    destruct (Qcompare_spec (x - inject_Z (Qfloor y)) (1 # 2)) as [Ex|Ex|Ex];
      destruct (Qcompare_spec (y - inject_Z (Qfloor y)) (1 # 2)) as [Ey|Ey|Ey];
      destruct (Z.even (Qfloor y)); try lia; exfalso; lra.
  - destruct (Qcompare (x - inject_Z (Qfloor x)) (1 # 2));
      destruct (Qcompare (y - inject_Z (Qfloor y)) (1 # 2));
      destruct (Z.even (Qfloor x)); destruct (Z.even (Qfloor y)); lia.
Qed.

Lemma round_half_even_Z (z : Z) : round_half_even (inject_Z z) = z.
Proof.
  unfold round_half_even. rewrite Qfloor_Z.
  destruct (Qcompare_spec (inject_Z z - inject_Z z) (1 # 2)) as [E|E|E];
    [exfalso; lra | reflexivity | exfalso; lra].
Qed.

(** Exactly the arguments within one half of 0 round to 0. *)
Lemma round_half_even_zero (y : Q) :
  round_half_even y = 0%Z <-> - (1 # 2) <= y <= 1 # 2.
Proof.
  split.
  - intros E. pose proof (round_half_even_near y) as H. rewrite E in H.
    change (inject_Z 0) with 0 in H. lra.
  - intros [Hlo Hhi].
    assert (H1 : (round_half_even (- (1 # 2)) <= round_half_even y)%Z)
      by now apply round_half_even_mono.
    assert (H2 : (round_half_even y <= round_half_even (1 # 2))%Z)
      by now apply round_half_even_mono.
    change (round_half_even (- (1 # 2))) with 0%Z in H1.
    change (round_half_even (1 # 2)) with 0%Z in H2. lia.
Qed.

Lemma pow10_pos (n : nat) : 0 < pow10 n.
Proof.
  unfold pow10. change 0 with (inject_Z 0). rewrite <- Zlt_Qlt.
  apply Z.pow_pos_nonneg; lia.
Qed.

Lemma pow10_nonzero (n : nat) : ~ pow10 n == 0.
Proof. pose proof (pow10_pos n). lra. Qed.

#[global] Instance py_round_comp (n : nat) : Proper (Qeq ==> Qeq) (py_round n).
Proof. intros x y Hxy. unfold py_round. now rewrite Hxy. Qed.

Lemma py_round_mono (n : nat) (x y : Q) : x <= y -> py_round n x <= py_round n y.
Proof.
  intros Hxy. pose proof (pow10_pos n) as Hp. unfold py_round.
  apply Qmult_le_compat_r; [|apply Qlt_le_weak, Qinv_lt_0_compat, Hp].
  rewrite <- Zle_Qle. apply round_half_even_mono.
  apply Qmult_le_compat_r; [exact Hxy | lra].
Qed.

(** Integers are fixed points of [round(x, n)]. *)
Lemma py_round_Z (n : nat) (z : Z) : py_round n (inject_Z z) == inject_Z z.
Proof.
  unfold py_round. pose proof (pow10_nonzero n) as Hp. unfold pow10 in *.
  rewrite <- inject_Z_mult, round_half_even_Z, inject_Z_mult.
  now field.
Qed.

Lemma py_round_zero_iff (n : nat) (x : Q) :
  py_round n x == 0 <-> - (1 # 2) <= x * pow10 n <= 1 # 2.
Proof.
  pose proof (pow10_nonzero n) as Hp.
  rewrite <- round_half_even_zero. unfold py_round. split.
  - intros E.
    assert (E' : inject_Z (round_half_even (x * pow10 n)) == 0).
    { rewrite <- (Qmult_0_l (pow10 n)), <- E. now field. }
    apply (inject_Z_injective _ 0%Z). exact E'.
  - intros ->. change (inject_Z 0) with 0. now field.
Qed.

(** [round(x, n)] moves its argument by at most half a unit of the n-th
    decimal. *)
Lemma py_round_near (n : nat) (x : Q) :
  - ((1 # 2) / pow10 n) <= py_round n x - x <= (1 # 2) / pow10 n.
Proof.
  pose proof (pow10_pos n) as Hp.
  pose proof (round_half_even_near (x * pow10 n)) as [Hlo Hhi].
  unfold py_round.
  set (k := inject_Z (round_half_even (x * pow10 n))) in *. clearbody k.
  assert (E : k / pow10 n - x == (k - x * pow10 n) / pow10 n) by (field; lra).
  rewrite E. split.
  - assert (E' : - ((1 # 2) / pow10 n) == (- (1 # 2)) / pow10 n) by (field; lra).
    rewrite E'. apply Qmult_le_compat_r; [lra|].
    apply Qlt_le_weak, Qinv_lt_0_compat, Hp.
  - apply Qmult_le_compat_r; [lra|].
    apply Qlt_le_weak, Qinv_lt_0_compat, Hp.
Qed.

End Rounding.

(** ** Counting *)

Section Counting.

Context {A : Type} (p : A -> bool).

Lemma py_count_from (xs : list A) (acc : Z) :
  fold_left (fun acc x => if p x then (acc + 1)%Z else acc) xs acc
  = (acc + py_count p xs)%Z.
Proof.
  unfold py_count. revert acc.
  induction xs as [|x xs IH]; intros acc; simpl; [lia|].
  rewrite IH, (IH (if p x then _ else _)). destruct (p x); lia.
Qed.

Lemma py_count_cons (x : A) (xs : list A) :
  py_count p (x :: xs) = ((if p x then 1 else 0) + py_count p xs)%Z.
Proof.
  unfold py_count at 1. simpl. rewrite py_count_from. destruct (p x); lia.
Qed.

(** A count lies between 0 and the length of the list. *)
Lemma py_count_bounds (xs : list A) : (0 <= py_count p xs <= len xs)%Z.
Proof.
  induction xs as [|x xs IH]; [unfold py_count, len; simpl; lia|].
  rewrite py_count_cons. unfold len in *. simpl length.
  destruct (p x); lia.
Qed.

End Counting.

(** ** Division *)

Lemma py_truediv_nonzero (a b : Q) : ~ b == 0 -> py_truediv a b = Ok (a / b).
Proof.
  intros Hb. unfold py_truediv.
  destruct (Qeq_bool b 0) eqn:E; [|reflexivity].
  apply Qeq_bool_iff in E. contradiction.
Qed.

Lemma py_truediv_zero (a b : Q) : b == 0 -> py_truediv a b = Raise ZeroDivisionError.
Proof.
  intros Hb. unfold py_truediv. apply Qeq_bool_iff in Hb. now rewrite Hb.
Qed.

Lemma inject_Z_nonzero (z : Z) : z <> 0%Z -> ~ inject_Z z == 0.
Proof. intros Hz E. apply Hz. now apply (inject_Z_injective z 0%Z). Qed.

Lemma len_cons_nonzero {A : Type} (x : A) (xs : list A) : len (x :: xs) <> 0%Z.
Proof. unfold len. simpl length. lia. Qed.

(** ** SLA evaluation *)

(** C1, at the input where the code departs from it: [evaluate_batch] on an
    empty incident list raises [ZeroDivisionError] (the [sla_status] entry
    divides by the list's length with no guard) and leaves the evaluations
    untouched. *)
Theorem evaluate_batch_empty_raises (m : SLAManager.t) :
  SLAManager.evaluate_batch [] m = (Raise ZeroDivisionError, m).
Proof. reflexivity. Qed.

(** On a non-empty list the summary is built: the rate is the compliant
    share times 100 rounded to 2 decimals, and the status is CUMPLE exactly
    when the share reaches 0.95. *)
Lemma evaluate_batch_nonempty (i : Incident.t) (rest : list Incident.t)
    (m : SLAManager.t) :
  let incidents := i :: rest in
  let share := inject_Z (py_count Incident.meets_sla incidents) / inject_Z (len incidents) in
  exists summary,
    (SLAManager.evaluate_batch incidents m).1 = Ok summary /\
    summary !! "compliance_rate_pct"%string = Some (VFloat (py_round 2 (share * 100))) /\
    summary !! "sla_status"%string
      = Some (VStr (if Qle_bool 0.95 share then "CUMPLE" else "INCUMPLE")).
Proof.
  intros incidents share. unfold SLAManager.evaluate_batch.
  destruct (SLAManager.evaluate_each incidents m) as [results m'].
  pose proof (len_cons_nonzero i rest) as Hlen. fold incidents in Hlen.
  apply Z.eqb_neq in Hlen as Hlenb. rewrite Hlenb.
  rewrite (py_truediv_nonzero _ _ (inject_Z_nonzero _ Hlen)).
  eexists. split; [reflexivity|]. fold share. split.
  - now rewrite !lookup_insert_ne, lookup_insert_eq by discriminate.
  - now rewrite !lookup_insert_ne, lookup_insert_eq by discriminate.
Qed.

(** C10: [evaluate] on an incident with no resolution time answers
    Pendiente and returns the manager unchanged; on a resolved incident it
    answers the verdict and appends the record {incident_id, severity,
    result, penalty_usd}; so a record is appended exactly when the incident
    has a resolution time. *)
Theorem evaluate_appends_iff_resolved (incident : Incident.t) (m : SLAManager.t) :
  let verdict : string :=
    if Incident.meets_sla incident then "Cumple SLA" else "Incumple SLA" in
  let record :=
    {| SLAManager.ev_incident_id := Incident.incident_id incident;
       SLAManager.ev_severity := Severity_name (Incident.severity incident);
       SLAManager.ev_result := verdict;
       SLAManager.ev_penalty_usd := Incident.penalty_usd incident |} in
  let after := (SLAManager.evaluate incident m).2 in
  match Incident.resolution_time_hours incident with
  | None =>
      SLAManager.evaluate incident m = ("Pendiente"%string, m)
  | Some _ =>
      (SLAManager.evaluate incident m).1 = verdict /\
      SLAManager.evaluations after = SLAManager.evaluations m ++ [record]
  end /\
  ((exists e, SLAManager.evaluations after = SLAManager.evaluations m ++ [e])
   <-> is_Some (Incident.resolution_time_hours incident)) /\
  (SLAManager.evaluations after = SLAManager.evaluations m
   <-> Incident.resolution_time_hours incident = None).
Proof.
  intros verdict record after. subst after. unfold SLAManager.evaluate.
  destruct (Incident.resolution_time_hours incident) as [t|]; simpl.
  - split; [split; reflexivity|]. split.
    + split; [intros _; eauto | intros _; eexists; reflexivity].
    + split; [|discriminate].
      intros E. apply (f_equal length) in E. rewrite length_app in E.
      simpl in E. lia.
  - split; [reflexivity|]. split; [|tauto].
    split; [|intros [x Hx]; discriminate].
    intros [e E]. apply (f_equal length) in E. rewrite length_app in E.
    simpl in E. lia.
Qed.

(** ** Unset optional fields *)

(** C5: an incident without a resolution timestamp reports [None] as its
    resolution time and does not meet its SLA; a scenario that has not been
    simulated meets neither its RTO nor its RPO. *)
Theorem unset_fields_gate_false :
  (forall i : Incident.t,
     Incident.resolved_at i = None ->
     Incident.resolution_time_hours i = None /\ Incident.meets_sla i = false) /\
  (forall s : ContinuityScenario.t,
     ContinuityScenario.actual_rto_h s = None ->
     ContinuityScenario.actual_rpo_h s = None ->
     ContinuityScenario.meets_rto s = false /\ ContinuityScenario.meets_rpo s = false).
Proof.
  split.
  - intros i Hi. unfold Incident.meets_sla, Incident.resolution_time_hours.
    now rewrite Hi.
  - intros s Hrto Hrpo.
    unfold ContinuityScenario.meets_rto, ContinuityScenario.meets_rpo.
    now rewrite Hrto, Hrpo.
Qed.

Lemma unset_fields_gate_false_witness :
  let i := Incident.init 0%Z "INC-001" "Facturacion SaaS" HIGH "Demo" "Equipo Alpha" 100 in
  let s := ContinuityScenario.init "ESC-001" DATABASE_FAILURE 0.15 4 0.25 3000 in
  (Incident.resolution_time_hours i = None /\ Incident.meets_sla i = false) /\
  (ContinuityScenario.meets_rto s = false /\ ContinuityScenario.meets_rpo s = false).
Proof.
  intros i s. destruct unset_fields_gate_false as [Hi Hs].
  split; [apply Hi | apply Hs]; reflexivity.
Defined.

(** ** The SLA boundary *)

(** C8: an incident resolved in exactly the SLA ceiling of its severity
    meets its SLA: the comparison is [<=]. *)
Theorem meets_sla_at_ceiling (i : Incident.t) (t : Q) :
  Incident.resolution_time_hours i = Some t ->
  t == inject_Z (Incident.sla_limit_hours i) ->
  Incident.meets_sla i = true.
Proof.
  intros Ht Heq. unfold Incident.meets_sla. rewrite Ht.
  apply Qle_bool_iff. rewrite Heq. apply Qle_refl.
Qed.

Lemma meets_sla_at_ceiling_witness :
  Incident.meets_sla
    (Incident.resolve 0%Z (Some (4 * 3600 * 1000000)%Z)
       (Incident.init 0%Z "INC-002" "API" HIGH "Demo" "Equipo Beta" 10)) = true.
Proof.
  apply (meets_sla_at_ceiling _ (total_seconds (4 * 3600 * 1000000 - 0)%Z / 3600));
    reflexivity.
Defined.

(** ** Excess hours and penalty *)

(** C3 as stated fails: one microsecond over the ceiling the excess is
    positive, yet the penalty, rounded to cents, is 0 and differs from
    excess times rate. *)
Lemma penalty_rounding_counterexample :
  let i := incident_one_microsecond_late in
  ~ Incident.excess_hours i == 0 /\
  Incident.penalty_usd i == 0 /\
  ~ Incident.penalty_usd i
      == Incident.excess_hours i * inject_Z (Incident.PENALTY_USD_PER_HOUR (Incident.severity i)).
Proof. vm_compute. repeat split; discriminate. Qed.

(** C3, amended: the excess is [max(0, resolution_hours - ceiling)] for a
    resolved incident and 0 for an unresolved one; the penalty is excess
    times rate rounded to 2 decimals; a zero excess gives a zero penalty, and
    the penalty is 0 exactly when excess times rate is at most half a cent. *)
Theorem excess_and_penalty (i : Incident.t) :
  let ceiling := inject_Z (Incident.sla_limit_hours i) in
  let rate := inject_Z (Incident.PENALTY_USD_PER_HOUR (Incident.severity i)) in
  Incident.excess_hours i
    == match Incident.resolution_time_hours i with
       | Some t => Qmax 0 (t - ceiling)
       | None => 0
       end /\
  0 <= Incident.excess_hours i /\
  Incident.penalty_usd i = py_round 2 (Incident.excess_hours i * rate) /\
  (Incident.excess_hours i == 0 -> Incident.penalty_usd i == 0) /\
  (Incident.penalty_usd i == 0 <-> Incident.excess_hours i * rate <= 1 # 200).
Proof.
  intros ceiling rate.
  assert (Hex : Incident.excess_hours i
                == match Incident.resolution_time_hours i with
                   | Some t => Qmax 0 (t - ceiling)
                   | None => 0
                   end).
  { unfold Incident.excess_hours.
    destruct (Incident.resolution_time_hours i); [apply py_max_Qmax | reflexivity]. }
  assert (Hnn : 0 <= Incident.excess_hours i).
  { rewrite Hex. destruct (Incident.resolution_time_hours i);
      [apply Q.le_max_l | apply Qle_refl]. }
  assert (Hrate : 0 < rate).
  { subst rate. destruct (Incident.severity i); reflexivity. }
  assert (Hzero : Incident.penalty_usd i == 0
                  <-> Incident.excess_hours i * rate <= 1 # 200).
  { unfold Incident.penalty_usd. fold rate. rewrite py_round_zero_iff.
    change (pow10 2) with 100. split; [intros [_ H]; lra|].
    intros H. split; [|lra].
    assert (0 <= Incident.excess_hours i * rate) by (apply Qmult_le_0_compat; lra).
    lra. }
  repeat split; try assumption; try apply Hzero.
  intros E. apply Hzero. rewrite E. lra.
Qed.

(** ** Risk *)

(** C4: the two worked risks of the specification. *)
Theorem risk_scenarios :
  let r1 := Risk.init "R-001" "Riesgo A" "Operativo" 0.15 60000 in
  let r2 := Risk.add_control "Control" 0.55
              (Risk.init "R-002" "Riesgo B" "Seguridad" 0.08 295000) in
  (Risk.inherent_risk_usd r1 == 9000 /\
   Risk.residual_risk_usd r1 == 9000 /\
   Risk.risk_level r1 = RISK_LOW /\
   Risk.exceeds_appetite r1 = false) /\
  (Risk.inherent_risk_usd r2 == 23600 /\
   Risk.residual_risk_usd r2 == 10620 /\
   Risk.risk_level r2 = RISK_MEDIUM).
Proof. vm_compute. repeat split. Qed.

(** C2 as stated fails three ways: the result is rounded to 4 decimals, so
    it differs from the complement product at (0.33333, 0.5); it is not
    above the first effectiveness at (0.40, 0.0); and it reaches 1 at
    (0.999, 0.999). *)
Lemma control_effectiveness_counterexample :
  ~ Risk.control_effectiveness (risk_with_two_controls 0.33333 0.5)
      == 1 - (1 - 0.33333) * (1 - 0.5) /\
  ~ 0.40 < Risk.control_effectiveness (risk_with_two_controls 0.40 0.0) /\
  ~ Risk.control_effectiveness (risk_with_two_controls 0.999 0.999) < 1.
Proof. vm_compute. repeat split; discriminate. Qed.

(** C2, amended: for two controls of effectiveness e1 and e2 in [0,1] the
    combined effectiveness is the complement product [1 - (1-e1)(1-e2)] up
    to its rounding to 4 decimals: the two differ by less than 0.0001. The
    complement product itself is at least either value and at most 1,
    strictly above one value when the other is positive and that one is
    below 1, and strictly below 1 when both are; the combined effectiveness
    lies in [0,1] and is above either value minus 0.0001. With controls
    (0.40, 0.0), and with the single control 0.40, it is 0.40; with a single
    control in [0,1] it differs from that control's effectiveness by less
    than 0.0001. *)
Theorem control_effectiveness_complement_product :
  (forall (r : Risk.t) (c1 c2 : Risk.Control),
     Risk.controls r = [c1; c2] ->
     let e1 := Risk.effectiveness c1 in
     let e2 := Risk.effectiveness c2 in
     let combined := 1 - (1 - e1) * (1 - e2) in
     0 <= e1 <= 1 -> 0 <= e2 <= 1 ->
     - (1 # 10000) < Risk.control_effectiveness r - combined < 1 # 10000 /\
     e1 <= combined /\ e2 <= combined /\ combined <= 1 /\
     (e1 < 1 -> e2 < 1 -> combined < 1) /\
     (0 < e2 -> e1 < 1 -> e1 < combined) /\
     (0 < e1 -> e2 < 1 -> e2 < combined) /\
     e1 - (1 # 10000) < Risk.control_effectiveness r /\
     e2 - (1 # 10000) < Risk.control_effectiveness r /\
     0 <= Risk.control_effectiveness r <= 1 /\
     (e1 == 0.40 -> e2 == 0 -> Risk.control_effectiveness r == 0.40)) /\
  (forall (r : Risk.t) (c : Risk.Control),
     Risk.controls r = [c] ->
     0 <= Risk.effectiveness c <= 1 ->
     - (1 # 10000) < Risk.control_effectiveness r - Risk.effectiveness c < 1 # 10000 /\
     (Risk.effectiveness c == 0.40 -> Risk.control_effectiveness r == 0.40)).
Proof.
  split.
  - intros r c1 c2 Hc e1 e2 combined [H1 H1'] [H2 H2'].
    assert (Hce : Risk.control_effectiveness r == py_round 4 combined).
    { unfold Risk.control_effectiveness. rewrite Hc.
      apply py_round_comp. unfold Risk.remaining_after. simpl.
      subst combined e1 e2. ring. }
    pose proof (py_round_near 4 combined) as Hnear.
    change ((1 # 2) / pow10 4) with (1 # 20000) in Hnear.
    assert (Hle1 : e1 <= combined) by (subst combined; nra).
    assert (Hle2 : e2 <= combined) by (subst combined; nra).
    assert (Hle : combined <= 1) by (subst combined; nra).
    assert (H0 : 0 <= py_round 4 combined).
    { rewrite <- (py_round_Z 4 0). apply py_round_mono.
      change (inject_Z 0) with 0. lra. }
    assert (Hmax : py_round 4 combined <= 1).
    { rewrite <- (py_round_Z 4 1). apply py_round_mono.
      change (inject_Z 1) with 1. exact Hle. }
    rewrite Hce.
    split; [lra|]. split; [exact Hle1|]. split; [exact Hle2|].
    split; [exact Hle|].
    split; [intros Ha Hb; subst combined; nra|].
    split; [intros Ha Hb; subst combined; nra|].
    split; [intros Ha Hb; subst combined; nra|].
    split; [lra|]. split; [lra|]. split; [lra|].
    intros E1 E2.
    assert (Hc' : combined == 0.40) by (subst combined; rewrite E1, E2; ring).
    rewrite Hc'. reflexivity.
  - intros r c Hc [H0 H1].
    assert (Hce : Risk.control_effectiveness r == py_round 4 (Risk.effectiveness c)).
    { unfold Risk.control_effectiveness. rewrite Hc.
      apply py_round_comp. unfold Risk.remaining_after. simpl. ring. }
    pose proof (py_round_near 4 (Risk.effectiveness c)) as Hnear.
    change ((1 # 2) / pow10 4) with (1 # 20000) in Hnear.
    rewrite Hce. split; [lra|].
    intros E. rewrite E. reflexivity.
Qed.

Lemma control_effectiveness_complement_product_witness :
  - (1 # 10000)
  < Risk.control_effectiveness (risk_with_two_controls 0.40 0.55)
    - (1 - (1 - 0.40) * (1 - 0.55))
  < 1 # 10000 /\
  0.40 < 1 - (1 - 0.40) * (1 - 0.55) /\
  Risk.control_effectiveness
    (Risk.add_control "Control" 0.40
       (Risk.init "R-004" "Riesgo D" "Operativo" 0.10 100000)) == 0.40.
Proof.
  destruct control_effectiveness_complement_product as [Htwo Hone].
  assert (H1 : 0 <= 0.40 <= 1) by (split; discriminate).
  assert (H2 : 0 <= 0.55 <= 1) by (split; discriminate).
  destruct (Htwo (risk_with_two_controls 0.40 0.55) _ _ eq_refl H1 H2)
    as (Hnear & _ & _ & _ & _ & Hgt & _).
  split; [exact Hnear|]. split.
  - apply Hgt; reflexivity.
  - apply (Hone _ {| Risk.control_name := "Control"; Risk.effectiveness := 0.40 |});
      [reflexivity | exact H1 | reflexivity].
Defined.

(** ** Aggregations over an empty collection *)

(** C6: with no monthly records [annual_summary], and with no scenarios
    [continuity_summary], return the empty dictionary without dividing;
    with at least one record or scenario they return a dictionary that has
    its first key, so the empty one is told apart. *)
Theorem empty_aggregations_return_empty_dict :
  (forall (m : AvailabilityManager.t) (sla_target : Q),
     AvailabilityManager.monthly_records m = [] ->
     AvailabilityManager.annual_summary sla_target m = Ok ∅) /\
  (forall s : RecoverySimulator.t,
     RecoverySimulator.scenarios s = [] ->
     RecoverySimulator.continuity_summary s = Ok ∅) /\
  (forall (m : AvailabilityManager.t) (sla_target : Q),
     AvailabilityManager.monthly_records m <> [] ->
     exists d, AvailabilityManager.annual_summary sla_target m = Ok d /\
               is_Some (d !! "avg_annual_uptime_pct"%string)) /\
  (forall s : RecoverySimulator.t,
     RecoverySimulator.scenarios s <> [] ->
     exists d, RecoverySimulator.continuity_summary s = Ok d /\
               d !! "total_scenarios"%string
                 = Some (VInt (len (RecoverySimulator.scenarios s)))).
Proof.
  repeat split.
  - intros m sla_target Hm. unfold AvailabilityManager.annual_summary. now rewrite Hm.
  - intros s Hs. unfold RecoverySimulator.continuity_summary. now rewrite Hs.
  - intros m sla_target Hm. unfold AvailabilityManager.annual_summary.
    destruct (AvailabilityManager.monthly_records m) as [|r rs]; [contradiction|].
    rewrite (py_truediv_nonzero _ _ (inject_Z_nonzero _ (len_cons_nonzero r rs))).
    eexists. split; [reflexivity|]. now rewrite lookup_insert_eq.
  - intros s Hs. unfold RecoverySimulator.continuity_summary.
    destruct (RecoverySimulator.scenarios s) as [|x xs]; [contradiction|].
    rewrite !(py_truediv_nonzero _ _ (inject_Z_nonzero _ (len_cons_nonzero x xs))).
    eexists. split; [reflexivity|]. now rewrite lookup_insert_eq.
Qed.

Lemma empty_aggregations_return_empty_dict_witness :
  AvailabilityManager.annual_summary 99.9 (AvailabilityManager.init None) = Ok ∅ /\
  RecoverySimulator.continuity_summary (RecoverySimulator.init None 4) = Ok ∅.
Proof.
  destruct empty_aggregations_return_empty_dict as (Ha & Hr & _).
  split; [apply Ha | apply Hr]; reflexivity.
Defined.

(** ** Maturity level *)

(** C7: [maturity_level] never divides by zero; it returns the OK share
    times 5, rounded, which lies in 0..5, with that level's label of the
    table; for an empty KPI list the share counts as 0 and the level is 0. *)
Theorem maturity_level_spec (d : GovernanceDashboard.t) :
  let score := py_round_int (ok_ratio d * 5) in
  GovernanceDashboard.maturity_level d = Ok (score, maturity_label score) /\
  (0 <= score <= 5)%Z /\
  (GovernanceDashboard.kpis d = [] ->
   GovernanceDashboard.maturity_level d = Ok (0%Z, "Inexistente"%string)).
Proof.
  intros score.
  set (ok := py_count (fun k => String.eqb (KPI.status k) "OK") (GovernanceDashboard.kpis d)).
  pose proof (py_count_bounds (fun k => String.eqb (KPI.status k) "OK")
                (GovernanceDashboard.kpis d)) as Hok.
  fold ok in Hok.
  assert (Hrange : (0 <= score <= 5)%Z).
  { subst score. unfold ok_ratio, py_round_int. fold ok.
    destruct (Z.eqb_spec (len (GovernanceDashboard.kpis d)) 0) as [E|E].
    - vm_compute. split; discriminate.
    - assert (Hpos : 0 < inject_Z (len (GovernanceDashboard.kpis d)))
        by (change 0 with (inject_Z 0); rewrite <- Zlt_Qlt; lia).
      assert (H0 : 0 <= inject_Z ok) by (change 0 with (inject_Z 0); rewrite <- Zle_Qle; lia).
      assert (H1 : inject_Z ok <= inject_Z (len (GovernanceDashboard.kpis d)))
        by (rewrite <- Zle_Qle; lia).
      assert (Hq : 0 <= inject_Z ok / inject_Z (len (GovernanceDashboard.kpis d)) <= 1).
      { split.
        - apply Qle_shift_div_l; [exact Hpos | lra].
        - apply Qle_shift_div_r; [exact Hpos | lra]. }
      set (q := inject_Z ok / inject_Z (len (GovernanceDashboard.kpis d))) in *.
      assert (Hlo : (round_half_even (inject_Z 0) <= round_half_even (q * 5))%Z)
        by (apply round_half_even_mono; change (inject_Z 0) with 0; lra).
      assert (Hhi : (round_half_even (q * 5) <= round_half_even (inject_Z 5))%Z)
        by (apply round_half_even_mono; change (inject_Z 5) with 5; lra).
      rewrite round_half_even_Z in Hlo, Hhi. lia. }
  assert (Hlevel : GovernanceDashboard.maturity_level d = Ok (score, maturity_label score)).
  { unfold GovernanceDashboard.maturity_level. fold ok.
    assert (Hdiv : py_truediv (inject_Z ok)
                     (inject_Z (if (len (GovernanceDashboard.kpis d) =? 0)%Z
                                then 1%Z else len (GovernanceDashboard.kpis d)))
                   = Ok (inject_Z ok
                         / inject_Z (if (len (GovernanceDashboard.kpis d) =? 0)%Z
                                     then 1%Z else len (GovernanceDashboard.kpis d)))).
    { apply py_truediv_nonzero, inject_Z_nonzero.
      destruct (Z.eqb_spec (len (GovernanceDashboard.kpis d)) 0); [discriminate | assumption]. }
    rewrite Hdiv. simpl.
    assert (Hscore : py_round_int
                       (inject_Z ok
                        / inject_Z (if (len (GovernanceDashboard.kpis d) =? 0)%Z
                                    then 1%Z else len (GovernanceDashboard.kpis d)) * 5)
                     = score).
    { subst score. unfold ok_ratio, py_round_int. fold ok.
      destruct (Z.eqb_spec (len (GovernanceDashboard.kpis d)) 0) as [E|E]; [|reflexivity].
      assert (ok = 0%Z) as -> by lia. reflexivity. }
    rewrite Hscore. f_equal. f_equal.
    assert (Hcases : score = 0%Z \/ score = 1%Z \/ score = 2%Z \/ score = 3%Z
                     \/ score = 4%Z \/ score = 5%Z) by lia.
    destruct Hcases as [->|[->|[->|[->|[->| ->]]]]]; reflexivity. }
  repeat split; try assumption; try apply Hrange.
  intros Hempty. rewrite Hlevel. subst score. unfold ok_ratio.
  rewrite Hempty. reflexivity.
Qed.

Lemma maturity_level_spec_witness :
  GovernanceDashboard.maturity_level (GovernanceDashboard.init "2024")
  = Ok (0%Z, "Inexistente"%string).
Proof.
  apply (maturity_level_spec (GovernanceDashboard.init "2024")). reflexivity.
Defined.

(** ** Availability *)

Lemma register_downtimes_total_minutes (minutes : list Q) (m : AvailabilityManager.t) :
  AvailabilityManager.total_minutes (register_downtimes minutes m)
  = AvailabilityManager.total_minutes m.
Proof.
  unfold register_downtimes. revert m.
  induction minutes as [|x xs IH]; intros m; simpl; [reflexivity|].
  now rewrite IH.
Qed.

(** C9 as stated fails: a negative period is truthy, so it is kept and
    [total_minutes] is not strictly positive. *)
Lemma total_minutes_negative_counterexample :
  ~ (0 < AvailabilityManager.total_minutes (AvailabilityManager.init (Some (-1)%Z)))%Z.
Proof. vm_compute. discriminate. Qed.

(** C9, amended: the constructor substitutes the default period of 525600
    minutes when the argument is [None] or 0 and keeps any other argument;
    so [total_minutes] is never zero, and strictly positive unless the
    argument is negative; after any sequence of [register_downtime] calls
    it is unchanged and [calculate_availability] returns, without dividing
    by zero, [(total - downtime) / total * 100] rounded to 4 decimals. *)
Theorem availability_never_divides_by_zero
    (total_minutes_period : option Z) (minutes : list Q) :
  let m := register_downtimes minutes (AvailabilityManager.init total_minutes_period) in
  let total := AvailabilityManager.total_minutes m in
  total = match total_minutes_period with
          | None => 525600%Z
          | Some n => if (n =? 0)%Z then 525600%Z else n
          end /\
  total <> 0%Z /\
  (match total_minutes_period with
   | None => True
   | Some n => (0 <= n)%Z
   end -> (0 < total)%Z) /\
  AvailabilityManager.calculate_availability m
  = Ok (py_round 4
          ((inject_Z total - AvailabilityManager.downtime_minutes m)
           / inject_Z total * 100)).
Proof.
  intros m total.
  assert (Htotal : total = match total_minutes_period with
                           | None => 525600%Z
                           | Some n => if (n =? 0)%Z then 525600%Z else n
                           end).
  { subst total m. rewrite register_downtimes_total_minutes.
    destruct total_minutes_period; reflexivity. }
  assert (Hnz : total <> 0%Z).
  { rewrite Htotal. destruct total_minutes_period as [n|]; [|discriminate].
    destruct (Z.eqb_spec n 0); [discriminate | assumption]. }
  repeat split; try assumption.
  - rewrite Htotal. destruct total_minutes_period as [n|]; [|reflexivity].
    intros Hn. destruct (Z.eqb_spec n 0); [reflexivity | lia].
  - unfold AvailabilityManager.calculate_availability. fold total.
    now rewrite (py_truediv_nonzero _ _ (inject_Z_nonzero _ Hnz)).
Qed.

Lemma availability_never_divides_by_zero_witness :
  (0 < AvailabilityManager.total_minutes
         (register_downtimes [120%Q] (AvailabilityManager.init (Some 43200%Z))))%Z.
Proof.
  apply (availability_never_divides_by_zero (Some 43200%Z) [120%Q]).
  discriminate.
Defined.

(** * Further properties of the model *)

(** ** Rounding and sums *)

Lemma py_round_nonneg (n : nat) (x : Q) : 0 <= x -> 0 <= py_round n x.
Proof.
  intros Hx. rewrite <- (py_round_Z n 0). apply py_round_mono. exact Hx.
Qed.

Lemma round_half_even_eq_Z (x : Q) (z : Z) :
  x == inject_Z z -> round_half_even x = z.
Proof. intros E. rewrite (round_half_even_comp _ _ E). apply round_half_even_Z. Qed.

(** Rounding does not cross an integer bound. *)
Lemma py_round_le_Z (n : nat) (x : Q) (z : Z) :
  x <= inject_Z z -> py_round n x <= inject_Z z.
Proof.
  intros Hx. apply Qle_trans with (py_round n (inject_Z z)).
  - now apply py_round_mono.
  - rewrite py_round_Z. apply Qle_refl.
Qed.

Lemma py_round_ge_Z (n : nat) (x : Q) (z : Z) :
  inject_Z z <= x -> inject_Z z <= py_round n x.
Proof.
  intros Hx. apply Qle_trans with (py_round n (inject_Z z)).
  - rewrite py_round_Z. apply Qle_refl.
  - now apply py_round_mono.
Qed.

(** Rounding twice to the same number of decimals changes nothing more. *)
Lemma py_round_idem (n : nat) (x : Q) : py_round n (py_round n x) == py_round n x.
Proof.
  unfold py_round at 1 3.
  assert (E : py_round n x * pow10 n == inject_Z (round_half_even (x * pow10 n))).
  { unfold py_round. field. apply pow10_nonzero. }
  now rewrite E, round_half_even_Z.
Qed.

Lemma py_sum_from (xs : list Q) (acc : Q) :
  fold_left Qplus xs acc == acc + py_sum xs.
Proof.
  unfold py_sum. revert acc.
  induction xs as [|x xs IH]; intros acc; simpl; [ring|].
  rewrite IH, (IH (0 + x)). ring.
Qed.

Lemma py_sum_cons (x : Q) (xs : list Q) : py_sum (x :: xs) == x + py_sum xs.
Proof. unfold py_sum at 1. simpl. rewrite py_sum_from. ring. Qed.

Lemma py_sum_snoc (xs : list Q) (x : Q) : py_sum (xs ++ [x]) = py_sum xs + x.
Proof. unfold py_sum. now rewrite fold_left_app. Qed.

Lemma py_sum_nonneg (xs : list Q) : Forall (fun x => 0 <= x) xs -> 0 <= py_sum xs.
Proof.
  induction 1 as [|x xs Hx _ IH]; [apply Qle_refl|].
  rewrite py_sum_cons. lra.
Qed.

Lemma py_count_filter {A : Type} (p : A -> bool) (xs : list A) :
  py_count p xs = len (List.filter p xs).
Proof.
  induction xs as [|x xs IH]; [reflexivity|].
  rewrite py_count_cons, IH. simpl. unfold len.
  destruct (p x); simpl length; lia.
Qed.

Lemma filter_negb_length {A : Type} (p : A -> bool) (xs : list A) :
  (len (List.filter p xs) + len (List.filter (fun x => negb (p x)) xs) = len xs)%Z.
Proof.
  unfold len. induction xs as [|x xs IH]; [reflexivity|].
  simpl. destruct (p x); simpl; lia.
Qed.

(** ** Incidents *)

Lemma py_max_zero_iff (x : Q) : py_max 0 x == 0 <-> x <= 0.
Proof.
  unfold py_max. destruct (Qlt_bool 0 x) eqn:E.
  - apply Qlt_bool_iff in E. split; intros H; lra.
  - apply not_true_iff_false in E. rewrite Qlt_bool_iff in E.
    split; intros H; lra.
Qed.

Lemma py_max_mono (x y : Q) : x <= y -> py_max 0 x <= py_max 0 y.
Proof.
  intros Hxy. rewrite !py_max_Qmax. apply Q.max_le_compat_l. exact Hxy.
Qed.

Lemma penalty_rate_pos (s : Severity) : 0 < inject_Z (Incident.PENALTY_USD_PER_HOUR s).
Proof. destruct s; reflexivity. Qed.

(** X1: an incident meets its SLA exactly when it is resolved and has no
    excess hours, and then its penalty is 0. *)
Theorem meets_sla_iff_resolved_without_excess (i : Incident.t) :
  (Incident.meets_sla i = true
   <-> is_Some (Incident.resolved_at i) /\ Incident.excess_hours i == 0) /\
  (Incident.meets_sla i = true -> Incident.penalty_usd i == 0).
Proof.
  assert (Hiff : Incident.meets_sla i = true
                 <-> is_Some (Incident.resolved_at i) /\ Incident.excess_hours i == 0).
  { unfold Incident.meets_sla, Incident.excess_hours, Incident.resolution_time_hours.
    destruct (Incident.resolved_at i) as [r|].
    - rewrite Qle_bool_iff, py_max_zero_iff. split.
      + intros H. split; [eauto | lra].
      + intros [_ H]. lra.
    - split; [discriminate | intros [[x Hx] _]; discriminate]. }
  split; [exact Hiff|].
  intros Hm. apply Hiff in Hm as [_ Hex].
  unfold Incident.penalty_usd. rewrite Hex, Qmult_0_l.
  apply (py_round_Z 2 0).
Qed.

(** X2: the penalty is never negative, and resolving the same incident later
    never lowers it. *)
Theorem penalty_grows_with_resolution_time (i : Incident.t)
    (now r1 r2 : datetime) :
  (r1 <= r2)%Z ->
  0 <= Incident.penalty_usd (Incident.resolve now (Some r1) i) /\
  Incident.penalty_usd (Incident.resolve now (Some r1) i)
  <= Incident.penalty_usd (Incident.resolve now (Some r2) i).
Proof.
  intros Hr.
  pose proof (penalty_rate_pos (Incident.severity i)) as Hrate.
  unfold Incident.penalty_usd, Incident.excess_hours, Incident.resolution_time_hours,
    Incident.sla_limit_hours, total_seconds. simpl.
  set (rate := inject_Z (Incident.PENALTY_USD_PER_HOUR (Incident.severity i))) in *.
  set (lim := inject_Z (Incident.SLA_HOURS (Incident.severity i))).
  assert (Hd : inject_Z (r1 - Incident.created_at i) / 1000000 / 3600 - lim
               <= inject_Z (r2 - Incident.created_at i) / 1000000 / 3600 - lim).
  { assert (H : inject_Z (r1 - Incident.created_at i)
                <= inject_Z (r2 - Incident.created_at i))
      by (rewrite <- Zle_Qle; lia).
    unfold Qdiv. 
    assert (H' : inject_Z (r1 - Incident.created_at i) * / 1000000 * / 3600
                 <= inject_Z (r2 - Incident.created_at i) * / 1000000 * / 3600).
    { repeat (apply Qmult_le_compat_r; [|discriminate]). exact H. }
    lra. }
  pose proof (py_max_mono _ _ Hd) as Hm.
  assert (H0 : 0 <= py_max 0 (inject_Z (r1 - Incident.created_at i) / 1000000 / 3600 - lim)).
  { rewrite py_max_Qmax. apply Q.le_max_l. }
  split.
  - apply py_round_nonneg. apply Qmult_le_0_compat; lra.
  - apply py_round_mono. apply Qmult_le_compat_r; lra.
Qed.

Lemma penalty_grows_with_resolution_time_witness :
  Incident.penalty_usd
    (Incident.resolve 0%Z (Some (5 * 3600 * 1000000)%Z)
       (Incident.init 0%Z "INC-004" "API" HIGH "Demo" "Equipo Beta" 10))
  <= Incident.penalty_usd
       (Incident.resolve 0%Z (Some (6 * 3600 * 1000000)%Z)
          (Incident.init 0%Z "INC-004" "API" HIGH "Demo" "Equipo Beta" 10)).
Proof.
  apply (penalty_grows_with_resolution_time
           (Incident.init 0%Z "INC-004" "API" HIGH "Demo" "Equipo Beta" 10) 0%Z
           (5 * 3600 * 1000000)%Z (6 * 3600 * 1000000)%Z).
  discriminate.
Defined.

(** X3: the serialized [resolution_time_h] is [None] not only for an
    unresolved incident but also for one resolved at its creation instant
    (a duration of 0.0 is falsy), although that incident meets its SLA. *)
Theorem to_dict_resolution_time_none (isoformat : datetime -> string) (i : Incident.t) :
  (Incident.to_dict isoformat i !! "resolution_time_h"%string = Some VNone
   <-> Incident.resolved_at i = None
       \/ Incident.resolved_at i = Some (Incident.created_at i)) /\
  (Incident.resolved_at i = Some (Incident.created_at i) ->
   Incident.to_dict isoformat i !! "meets_sla"%string = Some (VBool true)).
Proof.
  unfold Incident.to_dict. split.
  - rewrite !lookup_insert_ne, lookup_insert_eq by discriminate.
    unfold Incident.resolution_time_hours, float_truthy, total_seconds.
    destruct (Incident.resolved_at i) as [r|]; [|split; [now left | reflexivity]].
    destruct (Qeq_bool (inject_Z (r - Incident.created_at i) / 1000000 / 3600) 0) eqn:E; simpl.
    + apply Qeq_bool_iff in E. split; [|reflexivity]. intros _. right.
      assert (E' : inject_Z (r - Incident.created_at i) == 0).
      { rewrite <- (Qmult_0_l (1000000 * 3600)), <- E. field. }
      assert (Hz : (r - Incident.created_at i = 0)%Z)
        by (apply (inject_Z_injective _ 0%Z); exact E').
      f_equal. lia.
    + split; [discriminate|]. intros [H|H]; [discriminate|].
      injection H as ->. rewrite Z.sub_diag in E. discriminate.
  - intros Hr. rewrite !lookup_insert_ne, lookup_insert_eq by discriminate.
    do 2 f_equal.
    unfold Incident.meets_sla, Incident.resolution_time_hours, total_seconds.
    rewrite Hr, Z.sub_diag. apply Qle_bool_iff.
    unfold Incident.sla_limit_hours. destruct (Incident.severity i); discriminate.
Qed.

(** ** Batch evaluation *)

Lemma evaluate_each_ids (incidents : list Incident.t) (m : SLAManager.t) :
  map SLAManager.ev_incident_id (SLAManager.evaluations (SLAManager.evaluate_each incidents m).2)
  = map SLAManager.ev_incident_id (SLAManager.evaluations m)
    ++ map Incident.incident_id (List.filter is_resolved incidents) /\
  length (SLAManager.evaluate_each incidents m).1 = length incidents.
Proof.
  revert m. induction incidents as [|i rest IH]; intros m; simpl.
  - now rewrite app_nil_r.
  - destruct (SLAManager.evaluate i m) as [r m1] eqn:Ev.
    specialize (IH m1).
    destruct (SLAManager.evaluate_each rest m1) as [rs m2]. simpl in *.
    destruct IH as [IH1 IH2]. split; [|now rewrite IH2].
    rewrite IH1. unfold SLAManager.evaluate, Incident.resolution_time_hours in Ev.
    unfold is_resolved.
    destruct (Incident.resolved_at i) as [r0|]; injection Ev as <- <-; simpl.
    + now rewrite map_app, <- app_assoc.
    + reflexivity.
Qed.

(** X4: [evaluate_batch] appends, in order, one evaluation per resolved
    incident and none for an unresolved one, after whatever was evaluated
    before and whether or not the summary can be built. *)
Theorem evaluate_batch_appends_resolved (incidents : list Incident.t) (m : SLAManager.t) :
  map SLAManager.ev_incident_id
    (SLAManager.evaluations (SLAManager.evaluate_batch incidents m).2)
  = map SLAManager.ev_incident_id (SLAManager.evaluations m)
    ++ map Incident.incident_id (List.filter is_resolved incidents).
Proof.
  unfold SLAManager.evaluate_batch.
  pose proof (evaluate_each_ids incidents m) as [H _].
  destruct (SLAManager.evaluate_each incidents m) as [results m']. exact H.
Qed.

(** X5: on a non-empty list the summary is built; its compliant and
    non-compliant counts add up to the total, the rate lies between 0 and
    100, and the status CUMPLE is only given with a rate of at least 95. *)
Theorem evaluate_batch_summary_consistent (i : Incident.t) (rest : list Incident.t)
    (m : SLAManager.t) :
  let incidents := i :: rest in
  exists (summary : gmap string pyval) (compliant : Z) (rate : Q),
    (SLAManager.evaluate_batch incidents m).1 = Ok summary /\
    summary !! "total_incidents"%string = Some (VInt (len incidents)) /\
    summary !! "compliant"%string = Some (VInt compliant) /\
    summary !! "non_compliant"%string = Some (VInt (len incidents - compliant)) /\
    (0 <= compliant <= len incidents)%Z /\
    summary !! "compliance_rate_pct"%string = Some (VFloat rate) /\
    0 <= rate <= 100 /\
    (summary !! "sla_status"%string = Some (VStr "CUMPLE") -> 95 <= rate).
Proof.
  intros incidents. unfold SLAManager.evaluate_batch.
  destruct (SLAManager.evaluate_each incidents m) as [results m'].
  pose proof (len_cons_nonzero i rest) as Hlen. fold incidents in Hlen.
  apply Z.eqb_neq in Hlen as Hlenb. rewrite Hlenb.
  rewrite (py_truediv_nonzero _ _ (inject_Z_nonzero _ Hlen)).
  pose proof (py_count_bounds Incident.meets_sla incidents) as Hc.
  set (c := py_count Incident.meets_sla incidents) in *.
  set (n := len incidents) in *.
  assert (Hn : 0 < inject_Z n)
    by (change 0 with (inject_Z 0); rewrite <- Zlt_Qlt; lia).
  assert (Hc0 : 0 <= inject_Z c)
    by (change 0 with (inject_Z 0); rewrite <- Zle_Qle; lia).
  assert (Hcn : inject_Z c <= inject_Z n) by (rewrite <- Zle_Qle; lia).
  assert (Hshare : 0 <= inject_Z c / inject_Z n <= 1).
  { split; [apply Qle_shift_div_l | apply Qle_shift_div_r]; lra. }
  eexists. exists c, (py_round 2 (inject_Z c / inject_Z n * 100)).
  split; [reflexivity|].
  set (share := inject_Z c / inject_Z n) in *. clearbody share.
  repeat split.
  - lia.
  - lia.
  - apply py_round_nonneg. lra.
  - apply (py_round_le_Z 2 _ 100). change (inject_Z 100) with 100. lra.
  - rewrite !lookup_insert_ne, lookup_insert_eq by discriminate.
    destruct (Qle_bool 0.95 share) eqn:E; [|discriminate].
    intros _. apply Qle_bool_iff in E.
    apply (py_round_ge_Z 2 _ 95). change (inject_Z 95) with 95.
    assert (E' : 95 # 100 <= share) by exact E.
    lra.
Qed.

(** ** Breakdown by severity *)

Lemma Severity_name_eqb (s1 s2 : Severity) :
  String.eqb (Severity_name s1) (Severity_name s2) = bool_decide (s1 = s2).
Proof. destruct s1, s2; reflexivity. Qed.

Lemma filter_ext_bool {A : Type} (p q : A -> bool) (xs : list A) :
  (forall x, p x = q x) -> List.filter p xs = List.filter q xs.
Proof.
  intros H. induction xs as [|x xs IH]; [reflexivity|].
  simpl. now rewrite H, IH.
Qed.

(** What the grouping loop leaves under a key: the incidents with that
    severity name, in order, after whatever was there. *)
Lemma group_fold_lookup (incidents : list Incident.t)
    (acc : gmap string (list Incident.t)) (k : string) :
  fold_left
    (fun groups i =>
       let k := Severity_name (Incident.severity i) in
       <[k := default [] (groups !! k) ++ [i]]> groups)
    incidents acc !! k
  = match List.filter (fun i => String.eqb (Severity_name (Incident.severity i)) k)
            incidents with
    | [] => acc !! k
    | g => Some (default [] (acc !! k) ++ g)
    end.
Proof.
  revert acc. induction incidents as [|i rest IH]; intros acc; [reflexivity|].
  simpl fold_left. rewrite IH. simpl List.filter.
  destruct (String.eqb_spec (Severity_name (Incident.severity i)) k) as [->|Hne].
  - rewrite lookup_insert_eq. simpl.
    destruct (List.filter _ rest) as [|j g]; [reflexivity|].
    now rewrite <- app_assoc.
  - now rewrite lookup_insert_ne.
Qed.

Lemma group_by_severity_lookup (incidents : list Incident.t) (k : string) :
  SLAManager.group_by_severity incidents !! k
  = match List.filter (fun i => String.eqb (Severity_name (Incident.severity i)) k)
            incidents with
    | [] => None
    | g => Some g
    end.
Proof.
  unfold SLAManager.group_by_severity. rewrite group_fold_lookup.
  now rewrite lookup_empty.
Qed.

(** A non-empty group has its entry: neither division fails. *)
Lemma group_breakdown_nonempty (group : list Incident.t) :
  group <> [] ->
  exists e, SLAManager.group_breakdown group = Ok e /\
            SLAManager.sb_total e = len group /\
            (0 <= SLAManager.sb_compliant e <= SLAManager.sb_total e)%Z /\
            0 <= SLAManager.sb_pct e <= 100.
Proof.
  intros Hne. destruct group as [|i rest]; [contradiction|].
  unfold SLAManager.group_breakdown.
  pose proof (len_cons_nonzero i rest) as Hlen.
  rewrite !(py_truediv_nonzero _ _ (inject_Z_nonzero _ Hlen)).
  pose proof (py_count_bounds Incident.meets_sla (i :: rest)) as Hc.
  set (c := py_count Incident.meets_sla (i :: rest)) in *.
  set (n := len (i :: rest)) in *.
  eexists. split; [reflexivity|]. simpl.
  assert (Hn : 0 < inject_Z n)
    by (change 0 with (inject_Z 0); rewrite <- Zlt_Qlt; lia).
  assert (Hc0 : 0 <= inject_Z c)
    by (change 0 with (inject_Z 0); rewrite <- Zle_Qle; lia).
  assert (Hcn : inject_Z c <= inject_Z n) by (rewrite <- Zle_Qle; lia).
  assert (Hshare : 0 <= inject_Z c / inject_Z n <= 1).
  { split; [apply Qle_shift_div_l | apply Qle_shift_div_r]; lra. }
  set (share := inject_Z c / inject_Z n) in *. clearbody share.
  split; [reflexivity|]. split; [lia|]. split.
  - apply py_round_nonneg. lra.
  - apply (py_round_le_Z 2 _ 100). change (inject_Z 100) with 100. lra.
Qed.

(** The loop over the groups succeeds when no group is empty, and fills one
    entry per group. *)
Lemma breakdown_fold (groups : gmap string (list Incident.t)) :
  (forall k g, groups !! k = Some g -> g <> []) ->
  exists b : gmap string SLAManager.SeverityBreakdown,
    map_fold
      (fun sev group acc =>
         breakdown ← acc;
         entry ← SLAManager.group_breakdown group;
         Ok (<[sev := entry]> breakdown))
      (Ok ∅) groups = Ok b /\
    forall k, match groups !! k with
              | Some g => exists e, b !! k = Some e /\ SLAManager.group_breakdown g = Ok e
              | None => b !! k = None
              end.
Proof.
  apply (map_fold_weak_ind
    (fun r (m : gmap string (list Incident.t)) =>
       (forall k g, m !! k = Some g -> g <> []) ->
       exists b : gmap string SLAManager.SeverityBreakdown, r = Ok b /\
         forall k, match m !! k with
                   | Some g => exists e, b !! k = Some e /\ SLAManager.group_breakdown g = Ok e
                   | None => b !! k = None
                   end)).
  - intros _. exists ∅. split; [reflexivity|]. intros k. now rewrite !lookup_empty.
  - intros i x m r Hi IH Hall.
    destruct IH as (b & -> & Hb).
    { intros k g Hk. apply (Hall k). rewrite lookup_insert_ne; [exact Hk|].
      intros ->. rewrite Hi in Hk. discriminate. }
    destruct (group_breakdown_nonempty x) as (e & He & _).
    { apply (Hall i). apply lookup_insert_eq. }
    exists (<[i := e]> b). split.
    + simpl. rewrite He. reflexivity.
    + intros k. destruct (decide (i = k)) as [->|Hne].
      * rewrite !lookup_insert_eq. eauto.
      * rewrite !lookup_insert_ne by assumption. apply Hb.
Qed.

(** X6: [compliance_by_severity] never divides by zero: every group it
    builds is non-empty. The breakdown has an entry exactly for the severity
    names that occur among the incidents, and the entry of a severity counts
    its incidents, with a compliant count within the total and a percentage
    between 0 and 100. *)
Theorem compliance_by_severity_never_raises (incidents : list Incident.t) :
  exists breakdown,
    SLAManager.compliance_by_severity incidents = Ok breakdown /\
    (forall k, is_Some (breakdown !! k)
               <-> exists i, In i incidents /\ Severity_name (Incident.severity i) = k) /\
    (forall s e, breakdown !! Severity_name s = Some e ->
       SLAManager.sb_total e = py_count (has_severity s) incidents /\
       (0 <= SLAManager.sb_compliant e <= SLAManager.sb_total e)%Z /\
       0 <= SLAManager.sb_pct e <= 100).
Proof.
  unfold SLAManager.compliance_by_severity.
  destruct (breakdown_fold (SLAManager.group_by_severity incidents)) as (b & Hb & Hlk).
  { intros k g. rewrite group_by_severity_lookup.
    destruct (List.filter _ incidents); [discriminate|].
    intros [= <-]. discriminate. }
  exists b. split; [exact Hb|]. split.
  - intros k. specialize (Hlk k). rewrite group_by_severity_lookup in Hlk.
    destruct (List.filter (fun i => String.eqb (Severity_name (Incident.severity i)) k)
                incidents) as [|j g] eqn:Hf.
    + rewrite Hlk. split; [intros [x Hx]; discriminate|].
      intros (i & Hin & Hk).
      assert (Hi : In i (List.filter
                (fun i => String.eqb (Severity_name (Incident.severity i)) k) incidents)).
      { apply filter_In. split; [exact Hin|]. now apply String.eqb_eq. }
      rewrite Hf in Hi. destruct Hi.
    + destruct Hlk as (e & -> & _). split; [|eauto].
      intros _. exists j.
      assert (Hj : In j (List.filter
                (fun i => String.eqb (Severity_name (Incident.severity i)) k) incidents))
        by (rewrite Hf; now left).
      apply filter_In in Hj as [Hin Hk]. split; [exact Hin|].
      now apply String.eqb_eq.
  - intros s e He. specialize (Hlk (Severity_name s)).
    rewrite group_by_severity_lookup in Hlk.
    rewrite (filter_ext_bool _ (has_severity s)) in Hlk
      by (intros x; apply Severity_name_eqb).
    rewrite py_count_filter.
    destruct (List.filter (has_severity s) incidents) as [|j g] eqn:Hf.
    + rewrite Hlk in He. discriminate.
    + destruct Hlk as (e' & He' & Hg). rewrite He in He'. injection He' as <-.
      destruct (group_breakdown_nonempty (j :: g)) as (e2 & He2 & Ht & Hc & Hp);
        [discriminate|].
      rewrite Hg in He2. injection He2 as <-.
      split; [exact Ht|]. split; [exact Hc | exact Hp].
Qed.

(** ** Risk and its controls *)

Lemma remaining_after_from (cs : list Risk.Control) (r : Q) :
  Risk.remaining_after cs r == r * Risk.remaining_after cs 1.
Proof.
  unfold Risk.remaining_after. revert r.
  induction cs as [|c cs IH]; intros r; simpl; [ring|].
  rewrite IH, (IH (1 * _)). ring.
Qed.

Lemma remaining_after_cons (c : Risk.Control) (cs : list Risk.Control) :
  Risk.remaining_after (c :: cs) 1
  == (1 - Risk.effectiveness c) * Risk.remaining_after cs 1.
Proof.
  change (Risk.remaining_after (c :: cs) 1)
    with (Risk.remaining_after cs (1 * (1 - Risk.effectiveness c))).
  rewrite remaining_after_from. ring.
Qed.

Lemma remaining_after_snoc (cs : list Risk.Control) (c : Risk.Control) :
  Risk.remaining_after (cs ++ [c]) 1
  = Risk.remaining_after cs 1 * (1 - Risk.effectiveness c).
Proof. unfold Risk.remaining_after. now rewrite fold_left_app. Qed.

(** With every effectiveness in [0,1] the share of risk that remains is in
    [0,1] too. *)
Lemma remaining_after_range (cs : list Risk.Control) :
  Forall (fun c => 0 <= Risk.effectiveness c <= 1) cs ->
  0 <= Risk.remaining_after cs 1 <= 1.
Proof.
  induction 1 as [|c cs [Hc0 Hc1] _ IH].
  - unfold Risk.remaining_after. simpl. lra.
  - rewrite remaining_after_cons. nra.
Qed.

Lemma control_effectiveness_nonempty (r : Risk.t) :
  Risk.controls r <> [] ->
  Risk.control_effectiveness r
  = py_round 4 (1 - Risk.remaining_after (Risk.controls r) 1).
Proof.
  unfold Risk.control_effectiveness.
  destruct (Risk.controls r); [contradiction | reflexivity].
Qed.

Lemma control_effectiveness_range (r : Risk.t) :
  controls_in_range r ->
  0 <= Risk.control_effectiveness r <= 1.
Proof.
  intros Hr. unfold Risk.control_effectiveness.
  pose proof (remaining_after_range _ Hr) as Hrem.
  destruct (Risk.controls r) as [|c cs]; [lra|].
  split.
  - apply py_round_nonneg. lra.
  - apply (py_round_le_Z 4 _ 1). change (inject_Z 1) with 1. lra.
Qed.

(** X7: with any number of controls, each of an effectiveness in [0,1], the
    combined effectiveness lies in [0,1]: it never adds up past 1. *)
Theorem control_effectiveness_bounded (r : Risk.t) :
  controls_in_range r ->
  0 <= Risk.control_effectiveness r <= 1.
Proof. apply control_effectiveness_range. Qed.

Lemma control_effectiveness_bounded_witness :
  0 <= Risk.control_effectiveness (risk_with_two_controls 0.60 0.70) <= 1.
Proof.
  apply control_effectiveness_bounded.
  repeat constructor; discriminate.
Defined.

(** X9: adding a control of an effectiveness in [0,1] to controls in that
    range never lowers the combined effectiveness, and never raises the
    residual risk of a risk whose probability times impact is not
    negative. *)
Theorem add_control_never_hurts (r : Risk.t) (control_name : string) (e : Q) :
  controls_in_range r ->
  0 <= e <= 1 ->
  Risk.control_effectiveness r
  <= Risk.control_effectiveness (Risk.add_control control_name e r) /\
  (0 <= Risk.probability r * Risk.impact_usd r ->
   Risk.residual_risk_usd (Risk.add_control control_name e r)
   <= Risk.residual_risk_usd r).
Proof.
  intros Hr He.
  pose proof (remaining_after_range _ Hr) as Hrem.
  assert (Hce : Risk.control_effectiveness r
                <= Risk.control_effectiveness (Risk.add_control control_name e r)).
  { rewrite (control_effectiveness_nonempty (Risk.add_control control_name e r))
      by (simpl; destruct (Risk.controls r); discriminate).
    simpl Risk.controls. rewrite remaining_after_snoc. simpl Risk.effectiveness.
    unfold Risk.control_effectiveness.
    destruct (Risk.controls r) as [|c cs] eqn:E.
    - apply py_round_nonneg. unfold Risk.remaining_after. simpl. lra.
    - apply py_round_mono. nra. }
  split; [exact Hce|].
  intros Hpi. unfold Risk.residual_risk_usd.
  assert (Hin : 0 <= Risk.inherent_risk_usd r) by now apply py_round_nonneg.
  change (Risk.inherent_risk_usd (Risk.add_control control_name e r))
    with (Risk.inherent_risk_usd r).
  apply py_round_mono. nra.
Qed.

Lemma add_control_never_hurts_witness :
  Risk.control_effectiveness (risk_with_two_controls 0.40 0.55)
  <= Risk.control_effectiveness
       (Risk.add_control "Control C" 0.30 (risk_with_two_controls 0.40 0.55)).
Proof.
  assert (Hr : controls_in_range (risk_with_two_controls 0.40 0.55))
    by (repeat constructor; discriminate).
  assert (He : 0 <= 0.30 <= 1) by (split; discriminate).
  exact (proj1 (add_control_never_hurts
                  (risk_with_two_controls 0.40 0.55) "Control C" 0.30 Hr He)).
Defined.

(** X10: for controls in [0,1] and a probability times impact that is not
    negative, the residual risk lies between 0 and the inherent risk. *)
Theorem residual_within_inherent (r : Risk.t) :
  controls_in_range r ->
  0 <= Risk.probability r * Risk.impact_usd r ->
  0 <= Risk.residual_risk_usd r <= Risk.inherent_risk_usd r.
Proof.
  intros Hr Hpi.
  pose proof (control_effectiveness_range r Hr) as Hce.
  assert (Hin : 0 <= Risk.inherent_risk_usd r) by now apply py_round_nonneg.
  unfold Risk.residual_risk_usd. split.
  - apply py_round_nonneg. nra.
  - apply Qle_trans with (py_round 2 (Risk.inherent_risk_usd r)).
    + apply py_round_mono. nra.
    + unfold Risk.inherent_risk_usd. rewrite py_round_idem. apply Qle_refl.
Qed.

Lemma residual_within_inherent_witness :
  0 <= Risk.residual_risk_usd (risk_with_two_controls 0.40 0.55)
  <= Risk.inherent_risk_usd (risk_with_two_controls 0.40 0.55).
Proof.
  apply residual_within_inherent.
  - repeat constructor; discriminate.
  - discriminate.
Defined.

(** X11: the level and the appetite flag agree: a risk that exceeds the
    appetite of 50000 is High or Critical, and a Critical risk always
    exceeds the appetite. *)
Theorem appetite_and_level_agree (r : Risk.t) :
  (Risk.exceeds_appetite r = true ->
   Risk.risk_level r = RISK_HIGH \/ Risk.risk_level r = RISK_CRITICAL) /\
  (Risk.risk_level r = RISK_CRITICAL -> Risk.exceeds_appetite r = true).
Proof.
  unfold Risk.exceeds_appetite, Risk.risk_level, Risk.RISK_APPETITE_USD.
  set (res := Risk.residual_risk_usd r). clearbody res.
  destruct (Qlt_bool res 10000) eqn:E1;
    destruct (Qlt_bool res 30000) eqn:E2;
    destruct (Qlt_bool res 60000) eqn:E3;
    destruct (Qlt_bool (inject_Z 50000) res) eqn:E4;
    split; intros H; try discriminate; auto;
    repeat match goal with
           | H : Qlt_bool _ _ = true |- _ => apply Qlt_bool_iff in H
           | H : Qlt_bool _ _ = false |- _ =>
               apply not_true_iff_false in H; rewrite Qlt_bool_iff in H
           end;
    change (inject_Z 50000) with 50000 in *; exfalso; lra.
Qed.

(** ** Continuity scenarios *)

(** X12: the RTO gap is never negative and is 0 for a scenario that meets
    its RTO; a scenario that has not been simulated has no gap, no financial
    impact and no residual risk. *)
Theorem rto_gap_consistent (s : ContinuityScenario.t) :
  0 <= ContinuityScenario.rto_gap_h s /\
  (ContinuityScenario.meets_rto s = true -> ContinuityScenario.rto_gap_h s == 0) /\
  (ContinuityScenario.actual_rto_h s = None ->
   ContinuityScenario.rto_gap_h s == 0 /\
   ContinuityScenario.financial_impact_usd s == 0 /\
   ContinuityScenario.residual_risk_usd s == 0).
Proof.
  unfold ContinuityScenario.rto_gap_h, ContinuityScenario.meets_rto,
    ContinuityScenario.residual_risk_usd, ContinuityScenario.financial_impact_usd.
  destruct (ContinuityScenario.actual_rto_h s) as [a|].
  - split; [|split; [|discriminate]].
    + apply py_round_nonneg. rewrite py_max_Qmax. apply Q.le_max_l.
    + intros Hm. apply Qle_bool_iff in Hm.
      assert (E : py_max 0 (a - ContinuityScenario.rto_objective_h s) == 0)
        by (apply py_max_zero_iff; lra).
      rewrite E. apply (py_round_Z 2 0).
  - split; [apply Qle_refl|]. split; [discriminate|].
    intros _. split; [reflexivity|]. split; [reflexivity|].
    rewrite Qmult_0_r. apply (py_round_Z 2 0).
Qed.

(** X13: [run_all] returns the serialized scenarios, one per scenario and in
    order, when every scenario has an actual RTO; it raises [TypeError] as
    soon as one scenario has not been simulated. *)
Theorem run_all_needs_simulated_scenarios (sim : RecoverySimulator.t) :
  (Forall (fun s => is_Some (ContinuityScenario.actual_rto_h s))
     (RecoverySimulator.scenarios sim) ->
   RecoverySimulator.run_all sim
   = inr (map ContinuityScenario.to_dict (RecoverySimulator.scenarios sim))) /\
  (Exists (fun s => ContinuityScenario.actual_rto_h s = None)
     (RecoverySimulator.scenarios sim) ->
   RecoverySimulator.run_all sim = inl TypeError).
Proof.
  unfold RecoverySimulator.run_all. split.
  - induction 1 as [|s ss [a Ha] _ IH]; [reflexivity|].
    simpl. now rewrite Ha, IH.
  - induction 1 as [s ss Hs|s ss _ IH]; simpl.
    + now rewrite Hs.
    + rewrite IH. destruct (ContinuityScenario.actual_rto_h s) as [a|]; [|reflexivity].
      reflexivity.
Qed.

Lemma run_all_needs_simulated_scenarios_witness :
  RecoverySimulator.run_all
    (RecoverySimulator.add_scenario
       (ContinuityScenario.init "ESC-001" DATABASE_FAILURE 0.15 4 0.25 3000)
       (RecoverySimulator.init None 4))
  = inl TypeError.
Proof.
  apply run_all_needs_simulated_scenarios. apply Exists_cons_hd. reflexivity.
Defined.

(** X14: with at least one scenario the summary is built; the scenarios
    that meet their RTO and the critical ones add up to the total, the RTO
    percentage lies between 0 and 100, and it is 100 when no scenario is
    critical. *)
Theorem continuity_summary_consistent (sim : RecoverySimulator.t) :
  RecoverySimulator.scenarios sim <> [] ->
  exists (d : gmap string pyval) (rto_ok : Z) (critical : list pyval) (pct : Q),
    RecoverySimulator.continuity_summary sim = Ok d /\
    d !! "rto_compliant"%string = Some (VInt rto_ok) /\
    d !! "critical_scenarios"%string = Some (VList critical) /\
    (rto_ok + len critical = len (RecoverySimulator.scenarios sim))%Z /\
    d !! "rto_compliance_pct"%string = Some (VFloat pct) /\
    0 <= pct <= 100 /\
    (critical = [] -> pct == 100).
Proof.
  intros Hne. unfold RecoverySimulator.continuity_summary.
  destruct (RecoverySimulator.scenarios sim) as [|x xs] eqn:Ess; [contradiction|].
  set (ss := x :: xs) in *.
  pose proof (len_cons_nonzero x xs) as Hlen. fold ss in Hlen.
  rewrite !(py_truediv_nonzero _ _ (inject_Z_nonzero _ Hlen)).
  pose proof (py_count_bounds ContinuityScenario.meets_rto ss) as Hc.
  pose proof (py_count_filter ContinuityScenario.meets_rto ss) as Hcf.
  pose proof (filter_negb_length ContinuityScenario.meets_rto ss) as Hpart.
  set (c := py_count ContinuityScenario.meets_rto ss) in *.
  set (n := len ss) in *.
  assert (Hn : 0 < inject_Z n)
    by (change 0 with (inject_Z 0); rewrite <- Zlt_Qlt; lia).
  assert (Hc0 : 0 <= inject_Z c)
    by (change 0 with (inject_Z 0); rewrite <- Zle_Qle; lia).
  assert (Hcn : inject_Z c <= inject_Z n) by (rewrite <- Zle_Qle; lia).
  assert (Hshare : 0 <= inject_Z c / inject_Z n <= 1).
  { split; [apply Qle_shift_div_l | apply Qle_shift_div_r]; lra. }
  eexists. exists c.
  exists (map (fun s => VStr (ContinuityScenario.scenario_id s))
            (List.filter (fun s => negb (ContinuityScenario.meets_rto s)) ss)).
  exists (py_round 1 (inject_Z c / inject_Z n * 100)).
  split; [reflexivity|].
  split; [now rewrite !lookup_insert_ne, lookup_insert_eq by discriminate|].
  split; [now rewrite !lookup_insert_ne, lookup_insert_eq by discriminate|].
  split; [unfold len in *; rewrite length_map; lia|].
  split; [now rewrite !lookup_insert_ne, lookup_insert_eq by discriminate|].
  split; [split|].
  - apply py_round_nonneg.
    set (share := inject_Z c / inject_Z n) in *. clearbody share. lra.
  - apply (py_round_le_Z 1 _ 100). change (inject_Z 100) with 100.
    set (share := inject_Z c / inject_Z n) in *. clearbody share. lra.
  - intros Hcrit. apply (f_equal (@length pyval)) in Hcrit.
    rewrite length_map in Hcrit. change (length (@nil pyval)) with 0%nat in Hcrit.
    assert (Hcn' : c = n) by (unfold len in *; lia).
    rewrite Hcn'.
    assert (E : inject_Z n / inject_Z n * 100 == inject_Z 100)
      by (change (inject_Z 100) with 100; field; lra).
    rewrite E. apply py_round_Z.
Qed.

Lemma continuity_summary_consistent_witness :
  exists (d : gmap string pyval) (rto_ok : Z) (critical : list pyval) (pct : Q),
    RecoverySimulator.continuity_summary
      (RecoverySimulator.add_scenario
         (ContinuityScenario.simulate 3 0.1
            (ContinuityScenario.init "ESC-001" DATABASE_FAILURE 0.15 4 0.25 3000))
         (RecoverySimulator.init None 4)) = Ok d /\
    d !! "rto_compliant"%string = Some (VInt rto_ok) /\
    d !! "critical_scenarios"%string = Some (VList critical) /\
    (rto_ok + len critical = 1)%Z /\
    d !! "rto_compliance_pct"%string = Some (VFloat pct) /\
    0 <= pct <= 100 /\
    (critical = [] -> pct == 100).
Proof.
  apply (continuity_summary_consistent
           (RecoverySimulator.add_scenario
              (ContinuityScenario.simulate 3 0.1
                 (ContinuityScenario.init "ESC-001" DATABASE_FAILURE 0.15 4 0.25 3000))
              (RecoverySimulator.init None 4))).
  discriminate.
Defined.

(** ** Availability records *)

(** X15: with at least one monthly record the annual summary is built; the
    compliant and non-compliant months add up to the number of records, and
    the list of non-compliant months has one label per non-compliant
    month. *)
Theorem annual_summary_consistent (m : AvailabilityManager.t) (sla_target : Q) :
  AvailabilityManager.monthly_records m <> [] ->
  exists (d : gmap string pyval) (ok : Z) (bad : list pyval),
    AvailabilityManager.annual_summary sla_target m = Ok d /\
    d !! "months_compliant"%string = Some (VInt ok) /\
    d !! "months_non_compliant"%string
      = Some (VInt (len (AvailabilityManager.monthly_records m) - ok)) /\
    d !! "non_compliant_months"%string = Some (VList bad) /\
    (0 <= ok <= len (AvailabilityManager.monthly_records m))%Z /\
    (len bad = len (AvailabilityManager.monthly_records m) - ok)%Z.
Proof.
  intros Hne. unfold AvailabilityManager.annual_summary.
  destruct (AvailabilityManager.monthly_records m) as [|r rs] eqn:E; [contradiction|].
  rewrite (py_truediv_nonzero _ _ (inject_Z_nonzero _ (len_cons_nonzero r rs))).
  pose proof (filter_negb_length AvailabilityManager.meets_sla (r :: rs)) as Hpart.
  eexists.
  exists (len (List.filter AvailabilityManager.meets_sla (r :: rs))).
  exists (map (fun x => VStr (AvailabilityManager.month x))
            (List.filter (fun x => negb (AvailabilityManager.meets_sla x)) (r :: rs))).
  split; [reflexivity|].
  split; [now rewrite !lookup_insert_ne, lookup_insert_eq by discriminate|].
  split; [now rewrite !lookup_insert_ne, lookup_insert_eq by discriminate|].
  split; [now rewrite !lookup_insert_ne, lookup_insert_eq by discriminate|].
  unfold len in *. rewrite length_map. lia.
Qed.

Lemma annual_summary_consistent_witness :
  exists (d : gmap string pyval) (ok : Z) (bad : list pyval),
    AvailabilityManager.annual_summary 99.9
      (AvailabilityManager.record_monthly_availability "Mar" 99.38 4.526 99.9
         (AvailabilityManager.init None)).2 = Ok d /\
    d !! "months_compliant"%string = Some (VInt ok) /\
    d !! "months_non_compliant"%string = Some (VInt (1 - ok)) /\
    d !! "non_compliant_months"%string = Some (VList bad) /\
    (0 <= ok <= 1)%Z /\
    (len bad = 1 - ok)%Z.
Proof.
  apply (annual_summary_consistent
           (AvailabilityManager.record_monthly_availability "Mar" 99.38 4.526 99.9
              (AvailabilityManager.init None)).2 99.9).
  discriminate.
Defined.

Lemma register_downtimes_sum (minutes : list Q) (m : AvailabilityManager.t) :
  AvailabilityManager.downtime_minutes (register_downtimes minutes m)
  == AvailabilityManager.downtime_minutes m + py_sum minutes.
Proof.
  unfold register_downtimes. revert m.
  induction minutes as [|x xs IH]; intros m; simpl.
  - unfold py_sum. simpl. ring.
  - rewrite IH, py_sum_cons. simpl. ring.
Qed.

(** X16: after any sequence of [register_downtime] calls on a new manager
    the downtime is the sum of the registered minutes. With a positive
    period the availability is returned; it lies between 0 and 100 when the
    downtime lies between 0 and the period, is 100 without downtime, and is
    not clamped: a downtime above the period gives an availability of at
    most 0. *)
Theorem availability_follows_downtime (total_minutes_period : option Z)
    (minutes : list Q) :
  let m := register_downtimes minutes (AvailabilityManager.init total_minutes_period) in
  let total := inject_Z (AvailabilityManager.total_minutes m) in
  0 < total ->
  AvailabilityManager.downtime_minutes m == py_sum minutes /\
  exists a, AvailabilityManager.calculate_availability m = Ok a /\
            (0 <= py_sum minutes <= total -> 0 <= a <= 100) /\
            (py_sum minutes == 0 -> a == 100) /\
            (total < py_sum minutes -> a <= 0).
Proof.
  intros m total Htotal.
  assert (Hd : AvailabilityManager.downtime_minutes m == py_sum minutes).
  { subst m. rewrite register_downtimes_sum. simpl. ring. }
  split; [exact Hd|].
  unfold AvailabilityManager.calculate_availability. fold total.
  rewrite py_truediv_nonzero by lra.
  eexists. split; [reflexivity|].
  set (down := AvailabilityManager.downtime_minutes m) in *. clearbody down.
  clearbody total. rewrite <- Hd.
  split; [|split].
  - intros [H0 H1].
    assert (Hq : 0 <= (total - down) / total <= 1).
    { split; [apply Qle_shift_div_l | apply Qle_shift_div_r]; lra. }
    set (q := (total - down) / total) in *. clearbody q. split.
    + apply py_round_nonneg. lra.
    + apply (py_round_le_Z 4 _ 100). change (inject_Z 100) with 100. lra.
  - intros H0.
    assert (E : (total - down) / total * 100 == inject_Z 100)
      by (rewrite H0; change (inject_Z 100) with 100; field; lra).
    rewrite E. apply py_round_Z.
  - intros H1.
    assert (Hq : (total - down) / total <= 0)
      by (apply Qle_shift_div_r; lra).
    set (q := (total - down) / total) in *. clearbody q.
    apply (py_round_le_Z 4 _ 0). change (inject_Z 0) with 0. lra.
Qed.

Lemma availability_follows_downtime_witness :
  AvailabilityManager.downtime_minutes
    (register_downtimes [120%Q; 30%Q] (AvailabilityManager.init (Some 43200%Z)))
  == py_sum [120%Q; 30%Q].
Proof.
  apply (availability_follows_downtime (Some 43200%Z) [120%Q; 30%Q]).
  reflexivity.
Defined.

(** ** Services *)

(** X17: [Service.availability] and [Service.meets_sla] never divide by
    zero, whatever the window; over a window of 0 hours the availability is
    100 whatever downtime was registered. *)
Theorem service_availability_never_raises (s : Service.t) (total_hours : Q) :
  (exists a, Service.availability total_hours s = Ok a /\
             Service.meets_sla total_hours s
             = Ok (Qle_bool (Service.sla_availability_pct s) a)) /\
  (total_hours == 0 -> Service.availability total_hours s = Ok 100).
Proof.
  unfold Service.meets_sla, Service.availability.
  destruct (Qeq_bool total_hours 0) eqn:E.
  - split; [eexists; split; reflexivity | reflexivity].
  - apply Qeq_bool_neq in E. rewrite py_truediv_nonzero by exact E.
    split; [eexists; split; reflexivity | contradiction].
Qed.

(** ** KPIs *)

Lemma KPI_status_cases (k : KPI.t) :
  KPI.status k = "OK"%string \/ KPI.status k = "ALERTA"%string.
Proof.
  unfold KPI.status.
  destruct (KPI.higher_is_better k);
    [destruct (Qle_bool (KPI.threshold k) (KPI.value k))
    |destruct (Qle_bool (KPI.value k) (KPI.threshold k))]; auto.
Qed.

Lemma KPI_alert_not_ok (k : KPI.t) :
  String.eqb (KPI.status k) "ALERTA" = negb (String.eqb (KPI.status k) "OK").
Proof. destruct (KPI_status_cases k) as [-> | ->]; reflexivity. Qed.

(** X18: a KPI is OK or in ALERTA, and OK when its value equals its
    threshold, whatever its polarity; when it is OK its gap has the sign of
    its polarity (not negative if higher is better, not positive
    otherwise); [gap_pct] never divides by zero. *)
Theorem kpi_status_and_gap (k : KPI.t) :
  (KPI.status k = "OK"%string \/ KPI.status k = "ALERTA"%string) /\
  (KPI.value k == KPI.threshold k -> KPI.status k = "OK"%string) /\
  (KPI.status k = "OK"%string ->
   if KPI.higher_is_better k then 0 <= KPI.gap k else KPI.gap k <= 0) /\
  (exists g, KPI.gap_pct k = Ok g).
Proof.
  split; [apply KPI_status_cases|]. split; [|split].
  - intros E. unfold KPI.status.
    assert (H1 : Qle_bool (KPI.threshold k) (KPI.value k) = true)
      by (apply Qle_bool_iff; rewrite E; apply Qle_refl).
    assert (H2 : Qle_bool (KPI.value k) (KPI.threshold k) = true)
      by (apply Qle_bool_iff; rewrite E; apply Qle_refl).
    rewrite H1, H2. now destruct (KPI.higher_is_better k).
  - unfold KPI.status, KPI.gap.
    destruct (KPI.higher_is_better k).
    + destruct (Qle_bool (KPI.threshold k) (KPI.value k)) eqn:E; [|discriminate].
      intros _. apply Qle_bool_iff in E. apply py_round_nonneg. lra.
    + destruct (Qle_bool (KPI.value k) (KPI.threshold k)) eqn:E; [|discriminate].
      intros _. apply Qle_bool_iff in E.
      apply (py_round_le_Z 4 _ 0). change (inject_Z 0) with 0. lra.
  - unfold KPI.gap_pct.
    destruct (Qeq_bool (KPI.threshold k) 0) eqn:E; [eexists; reflexivity|].
    apply Qeq_bool_neq in E. rewrite py_truediv_nonzero by exact E.
    eexists. reflexivity.
Qed.

(** ** Governance dashboard *)

Lemma alerts_length (d : GovernanceDashboard.t) :
  (len (GovernanceDashboard.alerts d)
   + py_count (fun k => String.eqb (KPI.status k) "OK") (GovernanceDashboard.kpis d)
   = len (GovernanceDashboard.kpis d))%Z.
Proof.
  unfold GovernanceDashboard.alerts.
  rewrite (filter_ext_bool _ (fun k => negb (String.eqb (KPI.status k) "OK")))
    by apply KPI_alert_not_ok.
  rewrite py_count_filter.
  pose proof (filter_negb_length (fun k => String.eqb (KPI.status k) "OK")
                (GovernanceDashboard.kpis d)) as H.
  cbv beta in H. lia.
Qed.

Lemma alerts_nil_iff (d : GovernanceDashboard.t) :
  GovernanceDashboard.alerts d = []
  <-> Forall (fun k => KPI.status k = "OK"%string) (GovernanceDashboard.kpis d).
Proof.
  unfold GovernanceDashboard.alerts.
  induction (GovernanceDashboard.kpis d) as [|k ks IH]; simpl.
  - split; [constructor | reflexivity].
  - destruct (KPI_status_cases k) as [E|E]; rewrite E; simpl.
    + rewrite IH. split; [now constructor|]. now inversion 1.
    + split; [discriminate|]. inversion 1 as [|? ? Hk]. rewrite E in Hk. discriminate.
Qed.

(** X19: the KPIs in ALERTA and the KPIs that are OK add up to all KPIs; the
    governance status is CONFORME exactly when every KPI is OK (also when
    there is none), OBSERVACIÓN with exactly one alert and NO CONFORME with
    two or more. *)
Theorem governance_status_by_alerts (d : GovernanceDashboard.t) :
  (len (GovernanceDashboard.alerts d)
   + py_count (fun k => String.eqb (KPI.status k) "OK") (GovernanceDashboard.kpis d)
   = len (GovernanceDashboard.kpis d))%Z /\
  (GovernanceDashboard.governance_status d = "CONFORME"%string
   <-> Forall (fun k => KPI.status k = "OK"%string) (GovernanceDashboard.kpis d)) /\
  (GovernanceDashboard.governance_status d = "OBSERVACIÓN"%string
   <-> len (GovernanceDashboard.alerts d) = 1%Z) /\
  (GovernanceDashboard.governance_status d = "NO CONFORME"%string
   <-> (2 <= len (GovernanceDashboard.alerts d))%Z).
Proof.
  split; [apply alerts_length|].
  rewrite <- alerts_nil_iff.
  unfold GovernanceDashboard.governance_status, GovernanceDashboard.MAX_ALERTS_TOLERATED.
  assert (Hlen : len (GovernanceDashboard.alerts d) = 0%Z
                 <-> GovernanceDashboard.alerts d = []).
  { unfold len. destruct (GovernanceDashboard.alerts d); simpl; split;
      intros H; try reflexivity; try discriminate; lia. }
  assert (Hnn : (0 <= len (GovernanceDashboard.alerts d))%Z) by (unfold len; lia).
  destruct (Z.eqb_spec (len (GovernanceDashboard.alerts d)) 0) as [E|E].
  - repeat split; intros H; try discriminate; try lia. now apply Hlen.
  - destruct (Z.leb_spec (len (GovernanceDashboard.alerts d)) 1) as [E1|E1].
    + repeat split; intros H; try discriminate; try lia.
      apply Hlen in H. contradiction.
    + repeat split; intros H; try discriminate; try lia.
      apply Hlen in H. contradiction.
Qed.

(** The division of [maturity_level] never fails: the divisor is the number
    of KPIs, or 1 when there is none. *)
Lemma maturity_level_score (d : GovernanceDashboard.t) :
  let ok := py_count (fun k => String.eqb (KPI.status k) "OK") (GovernanceDashboard.kpis d) in
  let n := len (GovernanceDashboard.kpis d) in
  let score := py_round_int (inject_Z ok / inject_Z (if (n =? 0)%Z then 1%Z else n) * 5) in
  GovernanceDashboard.maturity_level d
  = Ok (score, default "Inicial"%string (GovernanceDashboard.descriptions !! score)).
Proof.
  intros ok n score. unfold GovernanceDashboard.maturity_level.
  fold ok. fold n.
  rewrite py_truediv_nonzero; [reflexivity|].
  apply inject_Z_nonzero. destruct (Z.eqb_spec n 0); [discriminate | assumption].
Qed.

Lemma py_count_all {A : Type} (p : A -> bool) (xs : list A) :
  Forall (fun x => p x = true) xs -> py_count p xs = len xs.
Proof.
  induction 1 as [|x xs Hx _ IH]; [reflexivity|].
  rewrite py_count_cons, Hx, IH. unfold len. simpl length. lia.
Qed.

Lemma py_count_none {A : Type} (p : A -> bool) (xs : list A) :
  Forall (fun x => p x = false) xs -> py_count p xs = 0%Z.
Proof.
  induction 1 as [|x xs Hx _ IH]; [reflexivity|].
  now rewrite py_count_cons, Hx, IH.
Qed.

Lemma py_count_snoc {A : Type} (p : A -> bool) (xs : list A) (x : A) :
  py_count p (xs ++ [x]) = (py_count p xs + (if p x then 1 else 0))%Z.
Proof.
  unfold py_count. rewrite fold_left_app. simpl. destruct (p x); lia.
Qed.

(** X20: a dashboard with at least one KPI, all of them OK, is at level 5,
    Optimizado; a dashboard whose KPIs are all in ALERTA is at level 0,
    Inexistente; and so is a dashboard without KPIs, although its
    governance status is CONFORME. *)
Theorem maturity_level_extremes (d : GovernanceDashboard.t) :
  (GovernanceDashboard.kpis d <> [] ->
   Forall (fun k => KPI.status k = "OK"%string) (GovernanceDashboard.kpis d) ->
   GovernanceDashboard.maturity_level d = Ok (5%Z, "Optimizado"%string)) /\
  (Forall (fun k => KPI.status k = "ALERTA"%string) (GovernanceDashboard.kpis d) ->
   GovernanceDashboard.maturity_level d = Ok (0%Z, "Inexistente"%string)) /\
  (GovernanceDashboard.kpis d = [] ->
   GovernanceDashboard.governance_status d = "CONFORME"%string /\
   GovernanceDashboard.maturity_level d = Ok (0%Z, "Inexistente"%string)).
Proof.
  assert (Hzero : Forall (fun k => KPI.status k = "ALERTA"%string)
                    (GovernanceDashboard.kpis d) ->
                  GovernanceDashboard.maturity_level d = Ok (0%Z, "Inexistente"%string)).
  { intros Hall. rewrite maturity_level_score.
    rewrite py_count_none
      by (eapply Forall_impl; [exact Hall | intros k Hk; simpl in Hk; now rewrite Hk]).
    assert (E : py_round_int
                  (inject_Z 0
                   / inject_Z (if (len (GovernanceDashboard.kpis d) =? 0)%Z
                               then 1%Z else len (GovernanceDashboard.kpis d)) * 5)
                = 0%Z).
    { unfold py_round_int. apply round_half_even_eq_Z.
      unfold Qdiv. change (inject_Z 0) with 0. ring. }
    rewrite E. reflexivity. }
  split; [|split; [exact Hzero|]].
  - intros Hne Hall. rewrite maturity_level_score.
    rewrite py_count_all
      by (eapply Forall_impl; [exact Hall | intros k Hk; simpl in Hk; now rewrite Hk]).
    assert (Hn : len (GovernanceDashboard.kpis d) <> 0%Z)
      by (destruct (GovernanceDashboard.kpis d); [contradiction | apply len_cons_nonzero]).
    apply Z.eqb_neq in Hn as Hnb. rewrite Hnb.
    assert (E : py_round_int
                  (inject_Z (len (GovernanceDashboard.kpis d))
                   / inject_Z (len (GovernanceDashboard.kpis d)) * 5)
                = 5%Z).
    { unfold py_round_int. apply round_half_even_eq_Z.
      change (inject_Z 5) with 5. field. now apply inject_Z_nonzero. }
    rewrite E. reflexivity.
  - intros Hempty. split.
    + unfold GovernanceDashboard.governance_status, GovernanceDashboard.alerts.
      now rewrite Hempty.
    + apply Hzero. rewrite Hempty. constructor.
Qed.

Lemma maturity_level_extremes_witness :
  GovernanceDashboard.maturity_level
    (GovernanceDashboard.add_kpi
       {| KPI.name := "Disponibilidad"; KPI.value := 99.95; KPI.threshold := 99.9;
          KPI.unit := "%"; KPI.framework := "ISO 20000"; KPI.higher_is_better := true |}
       (GovernanceDashboard.init "2024"))
  = Ok (5%Z, "Optimizado"%string).
Proof.
  apply maturity_level_extremes; [discriminate|].
  repeat constructor.
Defined.

Lemma Qdiv_le_cross (a b c d : Q) :
  0 < b -> 0 < d -> a * d <= c * b -> a / b <= c / d.
Proof.
  intros Hb Hd H.
  apply Qle_shift_div_l; [exact Hd|].
  assert (E : a / b * d == a * d / b) by (field; lra).
  rewrite E. apply Qle_shift_div_r; [exact Hb | exact H].
Qed.

(** X21: adding a KPI that is OK never lowers the maturity level, and adding
    one in ALERTA never raises it. *)
Theorem add_kpi_moves_maturity (d : GovernanceDashboard.t) (k : KPI.t) :
  exists (level level' : Z) (desc desc' : string),
    GovernanceDashboard.maturity_level d = Ok (level, desc) /\
    GovernanceDashboard.maturity_level (GovernanceDashboard.add_kpi k d)
    = Ok (level', desc') /\
    (KPI.status k = "OK"%string -> (level <= level')%Z) /\
    (KPI.status k = "ALERTA"%string -> (level' <= level)%Z).
Proof.
  rewrite (maturity_level_score d),
    (maturity_level_score (GovernanceDashboard.add_kpi k d)).
  do 4 eexists. split; [reflexivity|]. split; [reflexivity|].
  simpl GovernanceDashboard.kpis.
  rewrite py_count_snoc.
  pose proof (py_count_bounds (fun k => String.eqb (KPI.status k) "OK")
                (GovernanceDashboard.kpis d)) as Hok.
  set (ok := py_count (fun k => String.eqb (KPI.status k) "OK")
               (GovernanceDashboard.kpis d)) in *.
  assert (Hlen : len (GovernanceDashboard.kpis d ++ [k])
                 = (len (GovernanceDashboard.kpis d) + 1)%Z)
    by (unfold len; rewrite length_app; simpl; lia).
  rewrite Hlen.
  set (n := len (GovernanceDashboard.kpis d)) in *.
  assert (Hn : (0 <= n)%Z) by (subst n; unfold len; lia).
  clearbody ok n.
  assert (Hn1 : (n + 1 =? 0)%Z = false) by (apply Z.eqb_neq; lia).
  rewrite Hn1. unfold py_round_int.
  assert (Ha : 0 <= inject_Z ok) by (change 0 with (inject_Z 0); rewrite <- Zle_Qle; lia).
  assert (Hb : inject_Z ok <= inject_Z n) by (rewrite <- Zle_Qle; lia).
  assert (Hn0 : 0 <= inject_Z n) by (change 0 with (inject_Z 0); rewrite <- Zle_Qle; lia).
  split; intros Hk; rewrite Hk; simpl String.eqb; cbv iota;
    apply round_half_even_mono;
    (apply Qmult_le_compat_r; [|discriminate]);
    rewrite ?Z.add_0_r, ?inject_Z_plus; change (inject_Z 1) with 1;
    destruct (Z.eqb_spec n 0) as [E|E].
  - subst n. assert (ok = 0%Z) as -> by lia. vm_compute. discriminate.
  - assert (0 < inject_Z n)
      by (change 0 with (inject_Z 0); rewrite <- Zlt_Qlt; lia).
    apply Qdiv_le_cross; nra.
  - subst n. assert (ok = 0%Z) as -> by lia. vm_compute. discriminate.
  - assert (0 < inject_Z n)
      by (change 0 with (inject_Z 0); rewrite <- Zlt_Qlt; lia).
    apply Qdiv_le_cross; nra.
Qed.

(** X22: the committee always receives at least one decision: one per KPI
    in ALERTA, or the single no-action sentence when there is none. *)
Theorem committee_decision_count (format_2f : Q -> string) (d : GovernanceDashboard.t) :
  length (GovernanceDashboard.committee_decision format_2f d)
  = Nat.max 1 (length (GovernanceDashboard.alerts d)) /\
  (GovernanceDashboard.alerts d = [] ->
   GovernanceDashboard.committee_decision format_2f d
   = ["Sin acciones correctivas pendientes. Mantener controles actuales."%string]).
Proof.
  unfold GovernanceDashboard.committee_decision.
  destruct (GovernanceDashboard.alerts d) as [|k ks]; simpl.
  - split; reflexivity.
  - split; [|discriminate]. now rewrite length_map.
Qed.

(** ** The maturity score of the final report *)

Lemma ge_number_is_number (v : pyval) (x : Q) :
  (exists b, ReportGenerator.ge_number v x = inr b) <-> is_number v = true.
Proof.
  destruct v; simpl; split; intros H; try reflexivity; try discriminate;
    try (eexists; reflexivity); destruct H; discriminate.
Qed.

Lemma ge_number_not_number (v : pyval) (x : Q) :
  is_number v = false -> ReportGenerator.ge_number v x = inl TypeError.
Proof. destruct v; simpl; intros H; try discriminate; reflexivity. Qed.

Lemma add_if_range (c : bool) (score : Z) :
  (score <= ReportGenerator.add_if c score <= score + 1)%Z.
Proof. unfold ReportGenerator.add_if. destruct c; lia. Qed.

(** X23: when the maturity computation of the final report returns, the
    score lies in 0..5 and the text is that level's label of the table; a
    compliance rate of 90 or more earns two of the five points, since it
    also passes the criterion of 80. *)
Theorem report_maturity_range
    (sla_summary availability_summary dashboard_data continuity_summary
       : gmap string pyval) (score : Z) (txt : string) :
  ReportGenerator.maturity sla_summary availability_summary dashboard_data
    continuity_summary = inr (score, txt) ->
  (0 <= score <= 5)%Z /\
  txt = maturity_label score /\
  (forall rate : Q,
     sla_summary !! "compliance_rate_pct"%string = Some (VFloat rate) ->
     90 <= rate -> (2 <= score)%Z).
Proof.
  unfold ReportGenerator.maturity.
  destruct (ReportGenerator.ge_number
              (ReportGenerator.get_or_0 availability_summary "avg_annual_uptime_pct") 99.9)
    as [e|c1]; [discriminate|].
  destruct (ReportGenerator.ge_number
              (ReportGenerator.get_or_0 sla_summary "compliance_rate_pct") 90)
    as [e|c2] eqn:E2; [discriminate|].
  destruct (ReportGenerator.ge_number
              (ReportGenerator.get_or_0 dashboard_data "maturity_level") 3)
    as [e|c3]; [discriminate|].
  destruct (ReportGenerator.ge_number
              (ReportGenerator.get_or_0 continuity_summary "rto_compliance_pct") 60)
    as [e|c4]; [discriminate|].
  destruct (ReportGenerator.ge_number
              (ReportGenerator.get_or_0 sla_summary "compliance_rate_pct") 80)
    as [e|c5] eqn:E5; [discriminate|].
  intros [= <- <-].
  split; [destruct c1, c2, c3, c4, c5; vm_compute; split; discriminate|].
  split; [destruct c1, c2, c3, c4, c5; reflexivity|].
  intros rate Hrate H90.
  unfold ReportGenerator.get_or_0 in E2, E5. rewrite Hrate in E2, E5.
  simpl in E2, E5.
  assert (c2 = true) as ->.
  { injection E2 as <-. apply Qle_bool_iff. exact H90. }
  assert (c5 = true) as ->.
  { injection E5 as <-. apply Qle_bool_iff. lra. }
  destruct c1, c3, c4; vm_compute; discriminate.
Qed.

Lemma report_maturity_range_witness :
  (0 <= 3 <= 5)%Z /\ "Definido"%string = maturity_label 3.
Proof.
  assert (H : ReportGenerator.maturity
                (<["compliance_rate_pct"%string := VFloat 93.33]> ∅)
                (<["avg_annual_uptime_pct"%string := VFloat 99.72]> ∅)
                (<["maturity_level"%string := VInt 4]> ∅)
                ∅ = inr (3%Z, "Definido"%string))
    by (vm_compute; reflexivity).
  destruct (report_maturity_range _ _ _ _ _ _ H) as (Hr & Ht & _).
  split; [exact Hr | exact Ht].
Defined.

(** X24: a key missing from a summary counts as 0: with none of the four
    keys present, as with the empty summaries of an evaluator without
    records, the score is 0 and the text Inexistente, and nothing fails. *)
Theorem report_maturity_missing_keys
    (sla_summary availability_summary dashboard_data continuity_summary
       : gmap string pyval) :
  availability_summary !! "avg_annual_uptime_pct"%string = None ->
  sla_summary !! "compliance_rate_pct"%string = None ->
  dashboard_data !! "maturity_level"%string = None ->
  continuity_summary !! "rto_compliance_pct"%string = None ->
  ReportGenerator.maturity sla_summary availability_summary dashboard_data
    continuity_summary = inr (0%Z, "Inexistente"%string).
Proof.
  intros Ha Hs Hd Hc. unfold ReportGenerator.maturity, ReportGenerator.get_or_0.
  rewrite Ha, Hs, Hd, Hc. reflexivity.
Qed.

Lemma report_maturity_missing_keys_witness :
  ReportGenerator.maturity ∅ ∅ ∅ ∅ = inr (0%Z, "Inexistente"%string).
Proof. apply report_maturity_missing_keys; reflexivity. Defined.

(** X25: the maturity computation fails, with [TypeError], exactly when one
    of the four values it reads is not a number. *)
Theorem report_maturity_fails_on_non_numbers
    (sla_summary availability_summary dashboard_data continuity_summary
       : gmap string pyval) :
  let read d key := is_number (ReportGenerator.get_or_0 d key) in
  ReportGenerator.maturity sla_summary availability_summary dashboard_data
    continuity_summary = inl TypeError
  <-> read availability_summary "avg_annual_uptime_pct"%string
      && read sla_summary "compliance_rate_pct"%string
      && read dashboard_data "maturity_level"%string
      && read continuity_summary "rto_compliance_pct"%string = false.
Proof.
  intros read. subst read. unfold ReportGenerator.maturity. cbv beta.
  destruct (ReportGenerator.get_or_0 availability_summary "avg_annual_uptime_pct");
    destruct (ReportGenerator.get_or_0 sla_summary "compliance_rate_pct");
    destruct (ReportGenerator.get_or_0 dashboard_data "maturity_level");
    destruct (ReportGenerator.get_or_0 continuity_summary "rto_compliance_pct");
    simpl; split; intros H; try reflexivity; discriminate.
Qed.

(** ** Incident manager *)

Lemma excess_hours_nonneg (i : Incident.t) : 0 <= Incident.excess_hours i.
Proof.
  unfold Incident.excess_hours.
  destruct (Incident.resolution_time_hours i); [|apply Qle_refl].
  rewrite py_max_Qmax. apply Q.le_max_l.
Qed.

Lemma penalty_usd_nonneg (i : Incident.t) : 0 <= Incident.penalty_usd i.
Proof.
  unfold Incident.penalty_usd. apply py_round_nonneg.
  pose proof (excess_hours_nonneg i).
  pose proof (penalty_rate_pos (Incident.severity i)).
  apply Qmult_le_0_compat; lra.
Qed.

(** X26: the four severities partition the incidents of the manager: the
    sizes of [get_by_severity] add up to the number of incidents; and the
    total penalty is never negative. *)
Theorem incidents_partition_by_severity (m : IncidentManager.t) :
  (len (IncidentManager.get_by_severity CRITICAL m)
   + len (IncidentManager.get_by_severity HIGH m)
   + len (IncidentManager.get_by_severity MEDIUM m)
   + len (IncidentManager.get_by_severity LOW m)
   = len (IncidentManager.incidents m))%Z /\
  0 <= IncidentManager.total_penalty_usd m.
Proof.
  split.
  - unfold IncidentManager.get_by_severity, len.
    induction (IncidentManager.incidents m) as [|i rest IH]; [reflexivity|].
    simpl. destruct (Incident.severity i); simpl; lia.
  - unfold IncidentManager.total_penalty_usd. apply py_round_nonneg.
    apply py_sum_nonneg.
    induction (IncidentManager.incidents m) as [|i rest IH]; simpl;
      constructor; [apply penalty_usd_nonneg | exact IH].
Qed.

(** X27: [register_incident] appends the new incident, numbered with the
    current counter, and advances the counter by one; the new incident is
    open and among the open incidents, and until it is resolved the SLA
    evaluation answers Pendiente for it, records nothing and charges no
    penalty. *)
Theorem registered_incident_is_pending (format_03d : Z -> string) (now : datetime)
    (drawn_type drawn_team service_name : string) (severity : Severity)
    (incident_type team : option string) (clients_affected : Z)
    (m : IncidentManager.t) (sla : SLAManager.t) :
  let registered :=
    IncidentManager.register_incident format_03d now drawn_type drawn_team
      service_name severity incident_type team clients_affected m in
  let inc := registered.1 in
  let m' := registered.2 in
  IncidentManager.incidents m' = IncidentManager.incidents m ++ [inc] /\
  IncidentManager._counter m' = (IncidentManager._counter m + 1)%Z /\
  Incident.incident_id inc
  = ("INC-2024-" ++ format_03d (IncidentManager._counter m))%string /\
  In inc (IncidentManager.get_open_incidents m') /\
  SLAManager.evaluate inc sla = ("Pendiente"%string, sla) /\
  Incident.penalty_usd inc == 0.
Proof.
  intros registered inc m'. subst m' inc registered.
  unfold IncidentManager.register_incident. simpl.
  repeat split.
  unfold IncidentManager.get_open_incidents. simpl.
  apply filter_In. split; [|reflexivity].
  apply in_or_app. right. now left.
Qed.
